(** * pennylane-snowflurry: the PennyLane to Snowflurry converter

    A shallow embedding of [pennylane_snowflurry/pennylane_converter.py]:
    the operation table, the circuit translation, the readout helpers, the
    instruction introspection and the measurement dispatch, followed by the
    properties the converter's description states about them.

    Conventions of the embedding.
    - The Julia session [Main] is an explicit state ([Main] below) that every
      method threads; a Python exception is an outcome that still carries the
      session, because [Main] is global and keeps what was done before the
      exception.
    - Snowflurry, numpy and PennyLane functions are fields of a [Backend]
      record and are total; only exceptions raised by the converter's own
      code are modelled.
    - [print] and the calls into Julia are recorded, in order, in a trace. *)

From Stdlib Require Import String Ascii List ZArith Lia Bool Arith.
From Stdlib Require Import Numbers.DecimalString.
Import ListNotations.

Set Warnings "-register-all".

Local Open Scope string_scope.
Local Open Scope list_scope.

(** String concatenation, Python's [+] on [str]; [++] stays list append. *)
Infix "+++" := String.append (at level 60, right associativity).

(** ** Python values and strings *)

Inductive Exn : Type :=
| IndexError
| ValueError
| AttributeError
| UnboundLocalError.

(** The result of a pure Python expression that may raise. *)
Inductive Except (A : Type) : Type :=
| Val (a : A)
| Exc (e : Exn).
Arguments Val {A} a.
Arguments Exc {A} e.

Definition nl : string := String "010"%char EmptyString.
Definition tab : string := String "009"%char EmptyString.

(** [str(n)] for a Python int. *)
Definition str_int (n : Z) : string := NilZero.string_of_int (Z.to_int n).

(** Numeric gate parameters.  A float is carried with the text [str] gives
    for it: the converter only ever substitutes it into a template. *)
Inductive PyValue : Type :=
| PyInt (n : Z)
| PyFloat (repr : string).

Definition str (v : PyValue) : string :=
  match v with
  | PyInt n => str_int n
  | PyFloat r => r
  end.

(** [needle in hay] on strings. *)
Fixpoint contains (needle hay : string) : bool :=
  String.prefix needle hay ||
  match hay with
  | EmptyString => false
  | String _ rest => contains needle rest
  end.

(** [sep.join(l)] *)
Fixpoint join (sep : string) (l : list string) : string :=
  match l with
  | [] => ""
  | [s] => s
  | s :: rest => s +++ sep +++ join sep rest
  end.

Definition is_digit (c : ascii) : bool :=
  ((48 <=? nat_of_ascii c) && (nat_of_ascii c <=? 57))%nat.

Definition digit_value (c : ascii) : nat := (nat_of_ascii c - 48)%nat.

(** [template.format] on the unpacked arguments, already turned into
    text by [str].  [field] is [None] outside a replacement field, [Some None]
    right after an opening brace and [Some (Some k)] after the digits of
    index [k].  The brace escapes and the numbered fields [{k}] are
    handled; any other field syntax raises [ValueError] (the table uses
    none), an index past the arguments raises [IndexError]. *)
Fixpoint format_from (field : option (option nat)) (template : string)
    (args : list string) : Except string :=
  match template with
  | EmptyString =>
      match field with
      | None => Val ""
      | Some _ => Exc ValueError
      end
  | String c rest =>
      match field with
      | None =>
          if Ascii.eqb c "{" then
            match rest with
            | String c' rest' =>
                if Ascii.eqb c' "{" then
                  match format_from None rest' args with
                  | Val s => Val (String "{" s)
                  | Exc e => Exc e
                  end
                else format_from (Some None) rest args
            | EmptyString => Exc ValueError
            end
          else if Ascii.eqb c "}" then
            match rest with
            | String c' rest' =>
                if Ascii.eqb c' "}" then
                  match format_from None rest' args with
                  | Val s => Val (String "}" s)
                  | Exc e => Exc e
                  end
                else Exc ValueError
            | EmptyString => Exc ValueError
            end
          else
            match format_from None rest args with
            | Val s => Val (String c s)
            | Exc e => Exc e
            end
      | Some idx =>
          if Ascii.eqb c "}" then
            match idx with
            | None => Exc ValueError
            | Some k =>
                match nth_error args k with
                | None => Exc IndexError
                | Some a =>
                    match format_from None rest args with
                    | Val s => Val (a +++ s)
                    | Exc e => Exc e
                    end
                end
            end
          else if is_digit c then
            let k := match idx with None => 0 | Some k => 10 * k end%nat in
            format_from (Some (Some (k + digit_value c)%nat)) rest args
          else Exc ValueError
      end
  end.

Definition format (template : string) (args : list PyValue) : Except string :=
  format_from None template (map str args).

(** A dict with string keys, in insertion order as Python keeps it. *)
Definition dict (V : Type) : Type := list (string * V).

Fixpoint dict_get {V : Type} (d : dict V) (k : string) : option V :=
  match d with
  | [] => None
  | (k', v) :: rest => if String.eqb k k' then Some v else dict_get rest k
  end.

(** [d[k] = v]: an existing key keeps its place. *)
Fixpoint dict_set {V : Type} (d : dict V) (k : string) (v : V) : dict V :=
  match d with
  | [] => [(k, v)]
  | (k', v') :: rest =>
      if String.eqb k k' then (k', v) :: rest else (k', v') :: dict_set rest k v
  end.

(** A dict display [{k1: v1, k2: v2, ...}]. *)
Definition dict_literal {V : Type} (items : list (string * V)) : dict V :=
  fold_left (fun d kv => dict_set d (fst kv) (snd kv)) items [].

(** ** The operation table *)

(** A value of [SNOWFLURRY_OPERATION_MAP]: a template, or the class
    [NotImplementedError] used as a marker. *)
Inductive Entry : Type :=
| Template (t : string)
| NotImplementedError.

Definition SNOWFLURRY_OPERATION_MAP : dict Entry :=
  Eval vm_compute in dict_literal
  [ ("PauliX", Template "sigma_x({0})");
    ("PauliY", Template "sigma_y({0})");
    ("PauliZ", Template "sigma_z({0})");
    ("Hadamard", Template "hadamard({0})");
    ("CNOT", Template "control_x({0},{1})");
    ("CZ", Template "control_z({0},{1})");
    ("SWAP", Template "swap({0},{1})");
    ("ISWAP", Template "iswap({0},{1})");
    ("RX", Template "rotation_x({1},{0})");
    ("RY", Template "rotation_y({1},{0})");
    ("RZ", Template "rotation_z({1},{0})");
    ("Identity", Template "identity_gate({0})");
    ("CSWAP", NotImplementedError);
    ("CRX", Template "controlled(rotation_x({1},{0}),{1})");
    ("CRY", NotImplementedError);
    ("CRZ", NotImplementedError);
    ("PhaseShift", Template "phase_shift({1},{0})");
    ("QubitStateVector", NotImplementedError);
    ("StatePrep", NotImplementedError);
    ("Toffoli", Template "toffoli({0},{1},{2})");
    ("QubitUnitary", NotImplementedError);
    ("U1", NotImplementedError);
    ("U2", NotImplementedError);
    ("U3", Template "universal({3},{0},{1},{2})");
    ("IsingZZ", NotImplementedError);
    ("IsingYY", NotImplementedError);
    ("IsingXX", NotImplementedError);
    ("T", Template "pi_8({0})");
    ("Rot", Template "rotation({3},{0},{1})");
    ("QubitUnitary", NotImplementedError);
    ("QFT", NotImplementedError) ].

(** ** The PennyLane side: operations, measurements, tapes *)

(** What the converter reads of an operation: [op.name], [op.parameters],
    [op.wires.tolist()] and whether it is an instance of
    [qml.operation.StatePrepBase]. *)
Record Operation : Type := {
  name : string;
  parameters : list PyValue;
  wires : list Z;
  is_StatePrepBase : bool
}.

(** [type_repr] is the text of [type(obs)], printed by the expectation
    branch. *)
Record Observable : Type := {
  obs_wires : list Z;
  has_matrix : bool;
  type_repr : string
}.

(** The measurement classes [measure] tests for by name; they are siblings
    in PennyLane, so a measurement is an instance of at most one of them.
    Whether it also is a [StateMeasurement] is a separate fact of the
    measurement. *)
Inductive MPClass : Type :=
| CountsMP
| SampleMP
| ProbabilityMP
| ExpectationMP
| OtherMP.

Definition MPClass_eqb (a b : MPClass) : bool :=
  match a, b with
  | CountsMP, CountsMP | SampleMP, SampleMP | ProbabilityMP, ProbabilityMP
  | ExpectationMP, ExpectationMP | OtherMP, OtherMP => true
  | _, _ => false
  end.

Record MeasurementProcess : Type := {
  mp_class : MPClass;
  is_StateMeasurement : bool;
  obs : option Observable;
  mp_wires : list Z
}.

Record QuantumScript : Type := {
  operations : list Operation;
  measurements : list MeasurementProcess;
  total_shots : option nat
}.

(** [Wires.all_wires]: every wire once, in order of first use. *)
Fixpoint unique (seen l : list Z) : list Z :=
  match l with
  | [] => []
  | w :: rest =>
      if existsb (Z.eqb w) seen then unique seen rest
      else w :: unique (w :: seen) rest
  end.

Definition op_wires (tape : QuantumScript) : list Z :=
  unique [] (flat_map wires (operations tape)).

(** ** The Snowflurry side: instructions and circuits *)

(** An element of [QuantumCircuit.instructions] as Python sees it through
    its wrapper: a gate (its symbol, its qubits and the text of its
    operator), a readout, or any other instruction object, of which only
    its text and, if it has one, its [connected_qubits] are known. *)
Inductive Instruction : Type :=
| Gate (symbol : string) (connected_qubits : list Z) (operator : string)
| Readout (connected_qubit destination_bit : Z)
| Foreign (text : string) (connected_qubits : option (list Z)).

Definition show_qubits (qs : list Z) : string :=
  "[" +++ join ", " (map str_int qs) +++ "]".

(** [str(inst)], laid out as in the docstring of
    [get_circuit_as_dictionary]. *)
Definition str_inst (inst : Instruction) : string :=
  match inst with
  | Gate symbol qs operator =>
      "Gate Object: " +++ symbol +++ nl +++
      "Connected_qubits" +++ tab +++ ": " +++ show_qubits qs +++ nl +++
      "Operator:" +++ nl +++ operator
  | Readout q b =>
      "Explicit Readout object:" +++ nl +++
      "   connected_qubit: " +++ str_int q +++ nl +++
      "   destination_bit: " +++ str_int b +++ nl
  | Foreign text _ => text
  end.

(** [inst.connected_qubits] and [inst.connected_qubit]; a missing
    attribute raises. *)
Definition get_connected_qubits (inst : Instruction) : Except (list Z) :=
  match inst with
  | Gate _ qs _ => Val qs
  | Foreign _ (Some qs) => Val qs
  | _ => Exc AttributeError
  end.

Definition get_connected_qubit (inst : Instruction) : Except Z :=
  match inst with
  | Readout q _ => Val q
  | _ => Exc AttributeError
  end.

Definition is_Readout (inst : Instruction) : bool :=
  match inst with
  | Readout _ _ => true
  | _ => false
  end.

Record QuantumCircuit : Type := {
  qubit_count : nat;
  bit_count : nat;
  instructions : list Instruction
}.

(** ** The foreign functions *)

(** Snowflurry (through [Main]), numpy and PennyLane, as far as the
    converter calls them.  [get_status job k] is the answer to the poll
    that comes after [k] earlier polls of [job]. *)
Record Backend : Type := {
  Ket : Type;
  Distribution : Type;
  Scalar : Type;
  Client : Type;
  RemoteResult : Type;
  IntArray : Type;
  (** PennyLane *)
  map_to_standard_wires : QuantumScript -> QuantumScript;
  (** [QuantumCircuit(qubit_count=n)] leaves [bit_count] to Snowflurry *)
  default_bit_count : nat -> nat;
  (** the instruction a gate expression such as [sigma_x(1)] evaluates to *)
  julia_gate : string -> Instruction;
  (** [Main.Eval] on the client expression *)
  Eval_client : string -> Client;
  simulate_shots : QuantumCircuit -> nat -> list string;
  simulate : QuantumCircuit -> Ket;
  get_measurement_probabilities : QuantumCircuit -> option (list Z) -> Distribution;
  (** [expected_value(DenseOperator(qml.matrix(obs)), state)] *)
  expected_value : Observable -> Ket -> Scalar;
  submit_circuit : Client -> QuantumCircuit -> nat -> string;
  get_status : string -> nat -> string;
  get_result : string -> RemoteResult;
  (** [np.asarray(results).astype(int)] *)
  astype_int : list string -> IntArray
}.

Inductive Callee : Type :=
| c_simulate_shots
| c_simulate
| c_get_measurement_probabilities
| c_expected_value
| c_submit_circuit
| c_get_status
| c_get_result.

Definition is_remote (f : Callee) : bool :=
  match f with
  | c_submit_circuit | c_get_status | c_get_result => true
  | _ => false
  end.

(** What the converter does to the outside, in order. *)
Inductive Event : Type :=
| EvPrint (text : string)
| EvJuliaPrint (c : QuantumCircuit)
| EvSleep
| EvCall (f : Callee).

Definition is_remote_event (e : Event) : bool :=
  match e with
  | EvCall f => is_remote f
  | _ => false
  end.

Section Converter.

Context (B : Backend).

(** ** The Julia session and the monad of the converter's methods *)

(** The globals of [Main] the converter uses, and the trace. *)
Record Main : Type := {
  sf_circuit : QuantumCircuit;
  currentClient : option (Client B);
  result_state : option (Ket B);
  trace : list Event
}.

Inductive Outcome (A : Type) : Type :=
| Returned (a : A) (m : Main)
| Raised (e : Exn) (m : Main)
| Diverged.
Arguments Returned {A} a m.
Arguments Raised {A} e m.
Arguments Diverged {A}.

Definition Py (A : Type) : Type := Main -> Outcome A.

Definition ret {A : Type} (a : A) : Py A := fun m => Returned a m.

Definition bind {A C : Type} (c : Py A) (k : A -> Py C) : Py C :=
  fun m =>
    match c m with
    | Returned a m' => k a m'
    | Raised e m' => Raised e m'
    | Diverged => Diverged
    end.

Notation "x <- c ;; k" := (bind c (fun x => k))
  (at level 100, c at next level, right associativity).
Notation "c ;;; k" := (bind c (fun _ => k))
  (at level 100, right associativity).

Definition raise {A : Type} (e : Exn) : Py A := fun m => Raised e m.

Definition diverge {A : Type} : Py A := fun _ => Diverged.

Definition lift {A : Type} (x : Except A) : Py A :=
  match x with
  | Val a => ret a
  | Exc e => raise e
  end.

(** The session after one more event, and after a global is rebound. *)
Definition record (e : Event) (m : Main) : Main :=
  {| sf_circuit := sf_circuit m;
     currentClient := currentClient m;
     result_state := result_state m;
     trace := trace m ++ [e] |}.

Definition with_sf_circuit (c : QuantumCircuit) (m : Main) : Main :=
  {| sf_circuit := c;
     currentClient := currentClient m;
     result_state := result_state m;
     trace := trace m |}.

Definition with_currentClient (c : option (Client B)) (m : Main) : Main :=
  {| sf_circuit := sf_circuit m;
     currentClient := c;
     result_state := result_state m;
     trace := trace m |}.

Definition with_result_state (k : Ket B) (m : Main) : Main :=
  {| sf_circuit := sf_circuit m;
     currentClient := currentClient m;
     result_state := Some k;
     trace := trace m |}.

Definition emit (e : Event) : Py unit := fun m => Returned tt (record e m).

Definition print (text : string) : Py unit := emit (EvPrint text).

Definition get_sf_circuit : Py QuantumCircuit :=
  fun m => Returned (sf_circuit m) m.

Definition set_sf_circuit (c : QuantumCircuit) : Py unit :=
  fun m => Returned tt (with_sf_circuit c m).

Definition get_currentClient : Py (option (Client B)) :=
  fun m => Returned (currentClient m) m.

Definition set_currentClient (c : option (Client B)) : Py unit :=
  fun m => Returned tt (with_currentClient c m).

Definition set_result_state (k : Ket B) : Py unit :=
  fun m => Returned tt (with_result_state k m).

(** [push!(sf_circuit, inst)]: the instruction goes to the end of the
    circuit; what Snowflurry itself may refuse is not modelled. *)
Definition pushed (inst : Instruction) (m : Main) : Main :=
  with_sf_circuit {| qubit_count := qubit_count (sf_circuit m);
                     bit_count := bit_count (sf_circuit m);
                     instructions := instructions (sf_circuit m) ++ [inst] |} m.

Definition push (inst : Instruction) : Py unit :=
  fun m => Returned tt (pushed inst m).

(** A [for] loop whose body only acts on the session. *)
Fixpoint for_each {A : Type} (l : list A) (body : A -> Py unit) : Py unit :=
  match l with
  | [] => ret tt
  | x :: rest => body x ;;; for_each rest body
  end.

(** A Python reference to a circuit object: the object bound to
    [Main.sf_circuit], which later pushes are seen through, or a circuit of
    its own. *)
Inductive CircuitRef : Type :=
| the_sf_circuit
| detached (c : QuantumCircuit).

Definition deref (r : CircuitRef) : Py QuantumCircuit :=
  match r with
  | the_sf_circuit => get_sf_circuit
  | detached c => ret c
  end.

(** ** The converter *)

(** [self]; [rng], [debugger] and [interface] are stored and never read. *)
Record PennylaneConverter : Type := {
  circuit : QuantumScript
}.

(** The text handed to [Main.Eval]: a plain literal, its braces are not
    filled in. *)
Definition client_expression : string :=
  "Client(host={host},user={user},access_token={access_token}, project_id={project_id})".

Definition __init__ (tape : QuantumScript)
    (host user access_token project_id : string) : Py PennylaneConverter :=
  (if negb (String.length host =? 0)%nat
      && negb (String.length user =? 0)%nat
      && negb (String.length access_token =? 0)%nat
      && negb (String.length project_id =? 0)%nat
   then set_currentClient (Some (Eval_client B client_expression))
   else set_currentClient None) ;;;
  ret {| circuit := tape |}.

(** [len(tape) > 0 and isinstance(tape[0], StatePrepBase)]: [tape[0]] is
    the first operation, or a measurement when there is no operation. *)
Definition leading_prep (tape : QuantumScript) : bool :=
  match operations tape with
  | op :: _ => is_StatePrepBase op
  | [] => false
  end.

(** [op.parameters + [i + 1 for i in op.wires.tolist()]] *)
Definition gate_arguments (op : Operation) : list PyValue :=
  parameters op ++ map (fun i => PyInt (i + 1)) (wires op).

(** The body of the loop of [convert_circuit]. *)
Definition convert_operation (op : Operation) : Py unit :=
  match dict_get SNOWFLURRY_OPERATION_MAP (name op) with
  | Some NotImplementedError =>
      print (name op +++ " is not implemented yet, skipping...")
  | Some (Template t) =>
      gate <- lift (format t (gate_arguments op)) ;;
      push (julia_gate B gate)
  | None =>
      print (name op +++ " is not supported by this device. skipping...")
  end.

(** The operations the loop visits: [operations[bool(prep):]] of the tape
    on standard wires. *)
Definition visited_operations (tape : QuantumScript) : list Operation :=
  skipn (if leading_prep tape then 1 else 0)
        (operations (map_to_standard_wires B tape)).

Definition convert_circuit (self : PennylaneConverter)
    (pennylane_circuit : QuantumScript) : Py (CircuitRef * bool) :=
  let wires_nb := List.length (op_wires pennylane_circuit) in
  set_sf_circuit {| qubit_count := wires_nb;
                    bit_count := default_bit_count B wires_nb;
                    instructions := [] |} ;;;
  for_each (visited_operations pennylane_circuit) convert_operation ;;;
  ret (the_sf_circuit, false).

(** *** Introspection *)

(** An element of the list [get_circuit_as_dictionary] returns. *)
Record OpData : Type := {
  gate : string;
  connected_qubits : list Z
}.

Fixpoint line_of (s : string) : string :=
  match s with
  | EmptyString => EmptyString
  | String c rest =>
      if Ascii.eqb c "010" then EmptyString else String c (line_of rest)
  end.

(** What is left of [s] from its first newline on. *)
Fixpoint after_line (s : string) : string :=
  match s with
  | EmptyString => EmptyString
  | String c rest => if Ascii.eqb c "010" then s else after_line rest
  end.

Definition string_drop (n : nat) (s : string) : string :=
  substring n (String.length s - n) s.

(** [re.search] for the pattern of the gate name, which is the text
    [Gate Object: ], a greedy group of any characters but a newline, a
    newline and the text [Connected_qubits].  The match is the leftmost
    place where the first text is followed by the rest of its line and then
    by the second text; the group is that rest of the line.  [None] when
    there is no match. *)
Fixpoint re_search_gate (s : string) : option string :=
  let here :=
    if String.prefix "Gate Object: " s then
      let r := string_drop 13 s in
      if String.prefix (nl +++ "Connected_qubits") (after_line r)
      then Some (line_of r) else None
    else None in
  match here with
  | Some g => Some g
  | None =>
      match s with
      | EmptyString => None
      | String _ rest => re_search_gate rest
      end
  end.

(** The body of the [try] for one instruction.  [op_data] is the local of
    that name as the previous iterations left it ([None]: not bound yet).
    The result is the local after the body and whether the body raised;
    an assignment done before the exception stays. *)
Definition try_classify (inst : Instruction) (op_data : option OpData)
  : option OpData * bool :=
  let gate_str := str_inst inst in
  let after_gate :=
    if contains "Gate Object" gate_str then
      match re_search_gate gate_str with
      | None => Exc AttributeError
      | Some gate_name =>
          match get_connected_qubits inst with
          | Val qs => Val (Some {| gate := gate_name; connected_qubits := qs |})
          | Exc e => Exc e
          end
      end
    else Val op_data in
  match after_gate with
  | Exc _ => (op_data, true)
  | Val op_data' =>
      if contains "Readout" gate_str then
        match get_connected_qubit inst with
        | Val q => (Some {| gate := "Readout"; connected_qubits := [q] |}, false)
        | Exc _ => (op_data', true)
        end
      else (op_data', false)
  end.

(** The loop of [get_circuit_as_dictionary] with its two locals. *)
Fixpoint dictionary_loop (insts : list Instruction) (op_data : option OpData)
    (ops : list OpData) : Py (list OpData) :=
  match insts with
  | [] => ret ops
  | inst :: rest =>
      let '(op_data', raised) := try_classify inst op_data in
      (if raised then print ("Error while parsing " +++ str_inst inst)
       else ret tt) ;;;
      match op_data' with
      | None => raise UnboundLocalError
      | Some d => dictionary_loop rest op_data' (ops ++ [d])
      end
  end.

Definition get_circuit_as_dictionary : Py (list OpData) :=
  c <- get_sf_circuit ;;
  dictionary_loop (instructions c) None [].

Definition has_readout : Py bool :=
  ops <- get_circuit_as_dictionary ;;
  ret (existsb (fun op => String.eqb (gate op) "Readout") ops).

(** *** Readouts *)

(** [repr] of the list of wrapped instructions, as [print] shows it. *)
Definition repr_instructions (l : list Instruction) : string :=
  "[" +++ join ", " (map (fun i => "<PyCall.jlwrap " +++ str_inst i +++ ">") l)
      +++ "]".

Definition remove_readouts : Py QuantumCircuit :=
  ops <- get_circuit_as_dictionary ;;
  let new_ops := filter (fun op => negb (String.eqb (gate op) "Readout")) ops in
  c <- get_sf_circuit ;;
  let new_circuit := {| qubit_count := qubit_count c;
                        bit_count := bit_count c;
                        instructions := instructions c |} in
  print (repr_instructions (instructions new_circuit)) ;;;
  ret new_circuit.

(** The two kinds of Python object [apply_single_readout] compares, and
    [==] on them: a list never equals an int. *)
Inductive PyObject : Type :=
| ObjInt (n : Z)
| ObjList (l : list Z).

Definition py_eq (a b : PyObject) : bool :=
  match a, b with
  | ObjInt x, ObjInt y => Z.eqb x y
  | ObjList x, ObjList y =>
      if list_eq_dec Z.eq_dec x y then true else false
  | _, _ => false
  end.

(** The search loop of [apply_single_readout]: [true] when it returns from
    the method. *)
Definition readout_found (ops : list OpData) (wire : Z) : bool :=
  existsb (fun op =>
             String.eqb (gate op) "Readout"
             && py_eq (ObjList (connected_qubits op)) (ObjInt (wire - 1)))
          ops.

Definition apply_single_readout (wire : Z) : Py unit :=
  ops <- get_circuit_as_dictionary ;;
  if readout_found ops wire then ret tt
  else push (Readout (wire + 1) (wire + 1)).

Definition apply_readouts (wires_nb : nat) (obs : option Observable) : Py unit :=
  match obs with
  | None =>
      for_each (seq 0 wires_nb)
        (fun wire => push (Readout (Z.of_nat wire + 1) (Z.of_nat wire + 1)))
  | Some o =>
      wire <- lift (match obs_wires o with
                    | w :: _ => Val w
                    | [] => Exc IndexError
                    end) ;;
      apply_single_readout wire
  end.

(** *** Measurements *)

(** What [measure] and [measure_final_state] return. *)
Inductive Result : Type :=
| ResCounts (d : dict nat)
| ResSample (a : IntArray B)
| ResRemote (r : RemoteResult B)
| ResProbabilities (d : Distribution B)
| ResExpectation (x : Scalar B)
| ResState (k : Ket B)
| ResNotImplementedError
| ResTuple (l : list Result).

(** One step of [Counter]: one more observation of [x]. *)
Definition tally (d : dict nat) (x : string) : dict nat :=
  dict_set d x (match dict_get d x with
                | Some n => n + 1
                | None => 1
                end)%nat.

(** [dict(Counter(l))] *)
Definition Counter (l : list string) : dict nat := fold_left tally l [].

Definition call (f : Callee) : Py unit := emit (EvCall f).

(** The [while status != "succeeded"] loop; [k] polls were made before
    it.  A round of the loop costs one unit of [fuel]. *)
Fixpoint poll (fuel : nat) (circuitID : string) (k : nat) (status : string)
  : Py string :=
  if String.eqb status "succeeded" then ret status
  else
    match fuel with
    | O => diverge
    | S fuel' =>
        print ("checking for status for circuit id " +++ circuitID) ;;;
        emit EvSleep ;;;
        call c_get_status ;;;
        let status' := get_status B circuitID k in
        print ("current status : " +++ status') ;;;
        if String.eqb status' "failed" then ret status'
        else poll fuel' circuitID (S k) status'
    end.

(** The remote path shared, word for word, by the counts and the sample
    branch: [Some] is the value returned, [None] means that the branch is
    left without a [return]. *)
Definition run_on_hardware (fuel : nat) (client : Client B) (shots : nat)
  : Py (option Result) :=
  c <- get_sf_circuit ;;
  call c_submit_circuit ;;;
  let circuitID := submit_circuit B client c shots in
  call c_get_status ;;;
  status <- poll fuel circuitID 1 (get_status B circuitID 0) ;;
  if String.eqb status "succeeded" then
    call c_get_result ;;;
    ret (Some (ResRemote (get_result B circuitID)))
  else ret None.

Definition run_shots (shots : nat) : Py (list string) :=
  c <- get_sf_circuit ;;
  call c_simulate_shots ;;;
  ret (simulate_shots B c shots).

Definition counts_branch (fuel : nat) (self : PennylaneConverter)
    (mp : MeasurementProcess) (shots : nat) : Py (option Result) :=
  client <- get_currentClient ;;
  match client with
  | None =>
      apply_readouts (List.length (op_wires (circuit self))) (obs mp) ;;;
      shots_results <- run_shots shots ;;
      ret (Some (ResCounts (Counter shots_results)))
  | Some cl => run_on_hardware fuel cl shots
  end.

Definition sample_branch (fuel : nat) (self : PennylaneConverter)
    (mp : MeasurementProcess) (shots : nat) : Py (option Result) :=
  client <- get_currentClient ;;
  match client with
  | None =>
      apply_readouts (List.length (op_wires (circuit self))) (obs mp) ;;;
      shots_results <- run_shots shots ;;
      ret (Some (ResSample (astype_int B shots_results)))
  | Some cl => run_on_hardware fuel cl shots
  end.

Definition probability_branch (mp : MeasurementProcess) : Py (option Result) :=
  let wires_list := mp_wires mp in
  c <- get_sf_circuit ;;
  call c_get_measurement_probabilities ;;;
  if (List.length wires_list =? 0)%nat then
    ret (Some (ResProbabilities (get_measurement_probabilities B c None)))
  else
    ret (Some (ResProbabilities
                 (get_measurement_probabilities B c
                    (Some (map (fun i => (i + 1)%Z) wires_list))))).

Definition run_simulate (sf : CircuitRef) : Py (Ket B) :=
  c <- deref sf ;;
  call c_simulate ;;;
  let k := simulate B c in
  set_result_state k ;;;
  ret k.

Definition expectation_branch (mp : MeasurementProcess) (sf : CircuitRef)
  : Py (option Result) :=
  state <- run_simulate sf ;;
  match obs mp with
  | Some o =>
      if has_matrix o then
        print (type_repr o) ;;;
        call c_expected_value ;;;
        ret (Some (ResExpectation (expected_value B o state)))
      else ret None
  | None => ret None
  end.

Definition state_branch (sf : CircuitRef) : Py (option Result) :=
  readout <- has_readout ;;
  sf' <- (if readout then (c <- remove_readouts ;; ret (detached c))
          else ret sf) ;;
  state <- run_simulate sf' ;;
  ret (Some (ResState state)).

(** One [if isinstance(...)] block of [measure]: [rest] runs when the
    test fails or the block ends without a [return]. *)
Definition block (test : bool) (body : Py (option Result)) (rest : Py Result)
  : Py Result :=
  if test then
    r <- body ;;
    match r with
    | Some v => ret v
    | None => rest
    end
  else rest.

Definition measure (fuel : nat) (self : PennylaneConverter)
    (mp : MeasurementProcess) (sf : CircuitRef) (shots : nat) : Py Result :=
  block (MPClass_eqb (mp_class mp) CountsMP) (counts_branch fuel self mp shots)
  (block (MPClass_eqb (mp_class mp) SampleMP) (sample_branch fuel self mp shots)
  (block (MPClass_eqb (mp_class mp) ProbabilityMP) (probability_branch mp)
  (block (MPClass_eqb (mp_class mp) ExpectationMP) (expectation_branch mp sf)
  (block (is_StateMeasurement mp) (state_branch sf)
  (ret ResNotImplementedError))))).

(** The generator [measure(mp, ...) for mp in measurements], consumed by
    [tuple]: one call after the other, on the same session. *)
Fixpoint measure_each (fuel : nat) (self : PennylaneConverter)
    (mps : list MeasurementProcess) (sf : CircuitRef) (shots : nat)
  : Py (list Result) :=
  match mps with
  | [] => ret []
  | mp :: rest =>
      r <- measure fuel self mp sf shots ;;
      rs <- measure_each fuel self rest sf shots ;;
      ret (r :: rs)
  end.

Definition measure_final_state (fuel : nat) (self : PennylaneConverter)
    (tape : QuantumScript) (sf : CircuitRef) (is_state_batched : bool)
  : Py Result :=
  let tape := map_to_standard_wires B tape in
  let shots := match total_shots tape with
               | Some n => n
               | None => 1%nat
               end in
  results <-
    (match measurements tape with
     | [mp] => measure fuel self mp sf shots
     | mps => rs <- measure_each fuel self mps sf shots ;; ret (ResTuple rs)
     end) ;;
  c <- get_sf_circuit ;;
  emit (EvJuliaPrint c) ;;;
  ret results.

(** The method [simulate]; the name without the underscore is the
    backend's [Main.simulate]. *)
Definition simulate_ (fuel : nat) (self : PennylaneConverter) : Py Result :=
  converted <- convert_circuit self (circuit self) ;;
  measure_final_state fuel self (circuit self) (fst converted) (snd converted).

End Converter.

Arguments sf_circuit {B} m.
Arguments currentClient {B} m.
Arguments result_state {B} m.
Arguments trace {B} m.
Arguments record {B} e m.
Arguments with_sf_circuit {B} c m.
Arguments with_currentClient {B} c m.
Arguments with_result_state {B} k m.
Arguments pushed {B} inst m.
Arguments bind {B A C} c k m.
Arguments Returned {B A} a m.
Arguments Raised {B A} e m.
Arguments Diverged {B A}.
Arguments ResCounts {B} d.
Arguments ResNotImplementedError {B}.
Arguments ResTuple {B} l.

(** ** A backend to run the converter on

    Enough of a backend to evaluate the converter on concrete circuits: a
    gate expression evaluates to a gate whose symbol is the expression,
    every shot gives ["0"], a job succeeds at its second poll, and the
    other answers are the circuit they were asked about. *)
Definition echo_backend : Backend := {|
  Ket := QuantumCircuit;
  Distribution := QuantumCircuit * option (list Z);
  Scalar := Observable * QuantumCircuit;
  Client := string;
  RemoteResult := string;
  IntArray := list string;
  map_to_standard_wires := fun tape => tape;
  default_bit_count := fun n => n;
  julia_gate := fun g => Gate g [] "";
  Eval_client := fun e => e;
  simulate_shots := fun _ n => repeat "0" n;
  simulate := fun c => c;
  get_measurement_probabilities := fun c ws => (c, ws);
  expected_value := fun o k => (o, k);
  submit_circuit := fun _ _ _ => "job";
  get_status := fun _ k => if (k =? 0)%nat then "pending" else "succeeded";
  get_result := fun id => id;
  astype_int := fun l => l
|}.

(** A session in which [sf_circuit] is bound to [c] and nothing has
    happened yet. *)
Definition session (B : Backend) (c : QuantumCircuit) : Main B :=
  {| sf_circuit := c; currentClient := None; result_state := None; trace := [] |}.

Definition empty_circuit (n : nat) : QuantumCircuit :=
  {| qubit_count := n; bit_count := n; instructions := [] |}.

(** ** Notions used to state the properties *)

(** [inst] is what the loop of [convert_circuit] pushes for [op]: the
    template of [op.name] filled with the parameters followed by the wires,
    each wire plus one. *)
Definition corresponds (B : Backend) (op : Operation) (inst : Instruction) : Prop :=
  exists t g,
    dict_get SNOWFLURRY_OPERATION_MAP (name op) = Some (Template t) /\
    format t (parameters op ++ map (fun i => PyInt (i + 1)) (wires op)) = Val g /\
    inst = julia_gate B g.

(** [op] maps to an implemented template: the table has a template for its
    name and the operation has the arguments the template asks for. *)
Definition implemented (op : Operation) : Prop :=
  exists t g,
    dict_get SNOWFLURRY_OPERATION_MAP (name op) = Some (Template t) /\
    format t (gate_arguments op) = Val g.

(** The substitution for [op], if there is one, does not raise. *)
Definition substitutes (op : Operation) : Prop :=
  forall t, dict_get SNOWFLURRY_OPERATION_MAP (name op) = Some (Template t) ->
            exists g, format t (gate_arguments op) = Val g.

(** What the loop of [convert_circuit] adds to the circuit for [op]. *)
Definition emitted (B : Backend) (op : Operation) : list Instruction :=
  match dict_get SNOWFLURRY_OPERATION_MAP (name op) with
  | Some (Template t) =>
      match format t (gate_arguments op) with
      | Val g => [julia_gate B g]
      | Exc _ => []
      end
  | _ => []
  end.

(** What the loop of [convert_circuit] prints for [op]. *)
Definition diagnostic (op : Operation) : list Event :=
  match dict_get SNOWFLURRY_OPERATION_MAP (name op) with
  | Some (Template _) => []
  | Some NotImplementedError =>
      [EvPrint (name op +++ " is not implemented yet, skipping...")]
  | None =>
      [EvPrint (name op +++ " is not supported by this device. skipping...")]
  end.

(** [c in s] for one character. *)
Fixpoint occurs (c : ascii) (s : string) : bool :=
  match s with
  | EmptyString => false
  | String a rest => Ascii.eqb a c || occurs c rest
  end.

(** The instructions the docstring of [get_circuit_as_dictionary] shows:
    readouts, and gates whose symbol fits on one line. *)
Definition plain (inst : Instruction) : bool :=
  match inst with
  | Gate symbol _ _ => negb (occurs "010" symbol)
  | Readout _ _ => true
  | Foreign _ _ => false
  end.

(** The dictionary the docstring gives for an instruction. *)
Definition describe (inst : Instruction) : OpData :=
  match inst with
  | Gate symbol qs _ => {| gate := symbol; connected_qubits := qs |}
  | Readout q _ => {| gate := "Readout"; connected_qubits := [q] |}
  | Foreign text _ => {| gate := text; connected_qubits := [] |}
  end.

(** The sum of the values of a frequency table. *)
Definition total (d : dict nat) : nat := list_sum (map snd d).

(** The session an outcome leaves behind. *)
Definition final_session {B : Backend} {A : Type} (o : Outcome B A)
  : option (Main B) :=
  match o with
  | Returned _ m => Some m
  | Raised _ m => Some m
  | Diverged => None
  end.

Definition remote_events (tr : list Event) : list Event :=
  filter is_remote_event tr.

(** Running [c] from [m] ends (it returns or raises), leaves the client
    as it was and adds no call to the remote service to the trace. *)
Definition quiet_at {B : Backend} {A : Type} (c : Py B A) (m : Main B) : Prop :=
  exists m' tr,
    final_session (c m) = Some m' /\
    currentClient m' = currentClient m /\
    trace m' = trace m ++ tr /\
    remote_events tr = [].

Definition quiet {B : Backend} {A : Type} (c : Py B A) : Prop :=
  forall m, quiet_at c m.


(** One call of [measure] per measurement, in the order of the list, each
    on the session the previous one left, all of them returning. *)
Inductive measured_in_turn (B : Backend) (fuel : nat) (self : PennylaneConverter)
    (sf : CircuitRef) (shots : nat)
  : list MeasurementProcess -> Main B -> list (Result B) -> Main B -> Prop :=
| measured_none m :
    measured_in_turn B fuel self sf shots [] m [] m
| measured_next mp mps m r m1 rs m2 :
    measure B fuel self mp sf shots m = Returned r m1 ->
    measured_in_turn B fuel self sf shots mps m1 rs m2 ->
    measured_in_turn B fuel self sf shots (mp :: mps) m (r :: rs) m2.

(** [shots] as [measure_final_state] computes it. *)
Definition shots_of (B : Backend) (tape : QuantumScript) : nat :=
  match total_shots (map_to_standard_wires B tape) with
  | Some n => n
  | None => 1%nat
  end.

(** ** Sample circuits *)

Definition gate_op (n : string) (ps : list PyValue) (ws : list Z) : Operation :=
  {| name := n; parameters := ps; wires := ws; is_StatePrepBase := false |}.

(** [qml.BasisState([1], wires=[0])], a state preparation. *)
Definition basis_state : Operation :=
  {| name := "BasisState"; parameters := [PyInt 1]; wires := [0%Z];
     is_StatePrepBase := true |}.

Definition tape_of (ops : list Operation) (mps : list MeasurementProcess)
  : QuantumScript :=
  {| operations := ops; measurements := mps; total_shots := None |}.

Definition bell_ops : list Operation :=
  [gate_op "Hadamard" [] [0%Z]; gate_op "CNOT" [] [0%Z; 1%Z]].

Definition hadamard_gate : Instruction :=
  Gate "Snowflurry.Hadamard" [1%Z] "".

Definition counts_mp : MeasurementProcess :=
  {| mp_class := CountsMP; is_StateMeasurement := false; obs := None;
     mp_wires := [] |}.

Definition probs_mp (ws : list Z) : MeasurementProcess :=
  {| mp_class := ProbabilityMP; is_StateMeasurement := true; obs := None;
     mp_wires := ws |}.

Definition state_mp : MeasurementProcess :=
  {| mp_class := OtherMP; is_StateMeasurement := true; obs := None;
     mp_wires := [] |}.

(** A measurement that is an instance of none of the classes [measure]
    tests for, such as [qml.classical_shadow]. *)
Definition shadow_mp : MeasurementProcess :=
  {| mp_class := OtherMP; is_StateMeasurement := false; obs := None;
     mp_wires := [0%Z] |}.

Definition pauli_x0 : Operation := gate_op "PauliX" [] [0%Z].

(** An operation the table does not know. *)
Definition unknown_op : Operation := gate_op "Foo" [] [0%Z].

Definition converter_of (tape : QuantumScript) : PennylaneConverter :=
  {| circuit := tape |}.

(** The session a fresh converter starts from on [echo_backend]. *)
Definition start : Main echo_backend := session echo_backend (empty_circuit 0).

(** A one-qubit circuit that already has its readout. *)
Definition measured_circuit : QuantumCircuit :=
  {| qubit_count := 1; bit_count := 1;
     instructions := [hadamard_gate; Readout 1 1] |}.

(** An instruction that is neither a gate nor a readout. *)
Definition barrier : Instruction := Foreign "Barrier on qubits [1]" None.

(** A gate whose text has a line between its name and its qubits, so that
    the pattern of the gate name does not match. *)
Definition rotation_gate : Instruction :=
  Foreign ("Gate Object: Snowflurry.RotationX" +++ nl +++ "Parameters: " +++ nl
           +++ "theta" +++ tab +++ ": 0.5" +++ nl +++ nl
           +++ "Connected_qubits" +++ tab +++ ": [1]" +++ nl)
          (Some [1%Z]).

Definition circuit_of (insts : list Instruction) : QuantumCircuit :=
  {| qubit_count := 1; bit_count := 1; instructions := insts |}.

Definition bell_tape (mps : list MeasurementProcess) : QuantumScript :=
  tape_of bell_ops mps.

(** The session once the Bell circuit is translated. *)
Definition bell_session : Main echo_backend :=
  session echo_backend
    {| qubit_count := 2; bit_count := 2;
       instructions := [Gate "hadamard(1)" [] ""; Gate "control_x(1,2)" [] ""] |}.

(** The same session with a client. *)
Definition remote_session : Main echo_backend :=
  @with_currentClient echo_backend (Some client_expression) bell_session.

(** ** Notions for the further properties *)

(** The readouts [apply_readouts] pushes when there is no observable:
    qubit [i] into bit [i], for [i] from 1 to [n]. *)
Definition readouts_for (n : nat) : list Instruction :=
  map (fun wire => Readout (Z.of_nat wire + 1) (Z.of_nat wire + 1)) (seq 0 n).

(** The circuit of [m'] is the circuit of [m] with readouts after it, and
    nothing else has changed in it. *)
Definition readouts_added {B : Backend} (m m' : Main B) : Prop :=
  exists rs,
    instructions (sf_circuit m') = instructions (sf_circuit m) ++ rs /\
    forallb is_Readout rs = true /\
    qubit_count (sf_circuit m') = qubit_count (sf_circuit m) /\
    bit_count (sf_circuit m') = bit_count (sf_circuit m).

(** [c] only ever adds readouts to the circuit. *)
Definition adds_readouts_only {B : Backend} {A : Type} (c : Py B A) : Prop :=
  forall m m', final_session (c m) = Some m' -> readouts_added m m'.

(** A status that ends the polling loop. *)
Definition ends_polling (status : string) : bool :=
  String.eqb status "succeeded" || String.eqb status "failed".

(** A [CNOT] that lacks its second wire. *)
Definition short_cnot : Operation := gate_op "CNOT" [] [0%Z].

Definition measured_session : Main echo_backend :=
  session echo_backend measured_circuit.

Definition pauli_z_obs : Observable :=
  {| obs_wires := [1%Z; 0%Z]; has_matrix := true;
     type_repr := "<class 'pennylane.ops.qubit.non_parametric_ops.PauliZ'>" |}.

(** The circuit a reference stands for in session [m]. *)
Definition referred {B : Backend} (sf : CircuitRef) (m : Main B) : QuantumCircuit :=
  match sf with
  | the_sf_circuit => sf_circuit m
  | detached c => c
  end.

(** The seconds slept in a trace: [time.sleep(1)] once per event. *)
Definition seconds_slept (tr : list Event) : nat :=
  List.length (filter (fun e => match e with EvSleep => true | _ => false end) tr).

(** A measurement that is a [StateMeasurement] and nothing more specific,
    such as [qml.state()]. *)
Definition is_plain_state (mp : MeasurementProcess) : Prop :=
  mp_class mp = OtherMP /\ is_StateMeasurement mp = true.

(** A measurement that runs shots: counts or sample. *)
Definition runs_shots (mp : MeasurementProcess) : Prop :=
  mp_class mp = CountsMP \/ mp_class mp = SampleMP.

(** What a run of the polling loop leaves: the circuit and the client as
    they were, [d] seconds slept, no result fetched and no shot
    simulated. *)
Definition polled {B : Backend} (d : nat) (m m' : Main B) : Prop :=
  sf_circuit m' = sf_circuit m /\
  currentClient m' = currentClient m /\
  exists tr,
    trace m' = trace m ++ tr /\
    seconds_slept tr = d /\
    ~ In (EvCall c_get_result) tr /\
    ~ In (EvCall c_simulate_shots) tr.

(** [echo_backend] with the answers of the remote service to the status
    queries given by [answers]. *)
Definition status_backend (answers : nat -> string) : Backend := {|
  Ket := QuantumCircuit;
  Distribution := QuantumCircuit * option (list Z);
  Scalar := Observable * QuantumCircuit;
  Client := string;
  RemoteResult := string;
  IntArray := list string;
  map_to_standard_wires := fun tape => tape;
  default_bit_count := fun n => n;
  julia_gate := fun g => Gate g [] "";
  Eval_client := fun e => e;
  simulate_shots := fun _ n => repeat "0" n;
  simulate := fun c => c;
  get_measurement_probabilities := fun c ws => (c, ws);
  expected_value := fun o k => (o, k);
  submit_circuit := fun _ _ _ => "job";
  get_status := fun _ k => answers k;
  get_result := fun id => id;
  astype_int := fun l => l
|}.

(** A service whose jobs fail, and one whose jobs stay pending. *)
Definition failing_backend : Backend := status_backend (fun _ => "failed").
Definition pending_backend : Backend := status_backend (fun _ => "pending").

(** A session with a client and the Bell circuit, on a backend of that
    kind. *)
Definition remote_session_on (answers : nat -> string)
  : Main (status_backend answers) :=
  @with_currentClient (status_backend answers) (Some client_expression)
    (session (status_backend answers) (sf_circuit bell_session)).

(** An expectation measurement of [pauli_z_obs]. *)
Definition expval_mp : MeasurementProcess :=
  {| mp_class := ExpectationMP; is_StateMeasurement := true;
     obs := Some pauli_z_obs; mp_wires := [1%Z; 0%Z] |}.

(** An expectation measurement without an observable that is not a
    [StateMeasurement]. *)
Definition bare_expval_mp : MeasurementProcess :=
  {| mp_class := ExpectationMP; is_StateMeasurement := false;
     obs := None; mp_wires := [] |}.

(** A session whose circuit starts with an instruction that cannot be
    classified. *)
Definition barrier_session : Main echo_backend :=
  session echo_backend (circuit_of [barrier; hadamard_gate]).

(** ** A template filled in, field by field *)

(** The index a run of digits stands for, read after [acc]. *)
Fixpoint digits_value (acc : nat) (ds : string) : option nat :=
  match ds with
  | EmptyString => Some acc
  | String c rest =>
      if is_digit c then digits_value (10 * acc + digit_value c) rest else None
  end.

(** [rendered op t g]: the text [g] is the template [t] with every
    replacement field filled in from [op].  A field whose index is below
    the number of parameters stands for that parameter and is filled with
    its text; the field of index [number of parameters + j] stands for the
    [j]-th wire and is filled with the text of that wire plus one.  The
    rest of the template is copied, a doubled brace standing for one. *)
Inductive rendered (op : Operation) : string -> string -> Prop :=
| rendered_end :
    rendered op "" ""
| rendered_text (c : ascii) (t g : string) :
    c <> "{"%char -> c <> "}"%char ->
    rendered op t g ->
    rendered op (String c t) (String c g)
| rendered_open (t g : string) :
    rendered op t g ->
    rendered op (String "{" (String "{" t)) (String "{" g)
| rendered_close (t g : string) :
    rendered op t g ->
    rendered op (String "}" (String "}" t)) (String "}" g)
| rendered_parameter (ds : string) (k : nat) (p : PyValue) (t g : string) :
    ds <> "" ->
    digits_value 0 ds = Some k ->
    nth_error (parameters op) k = Some p ->
    rendered op t g ->
    rendered op (String "{" (ds +++ String "}" t)) (str p +++ g)
| rendered_wire (ds : string) (j : nat) (w : Z) (t g : string) :
    ds <> "" ->
    digits_value 0 ds = Some (List.length (parameters op) + j)%nat ->
    nth_error (wires op) j = Some w ->
    rendered op t g ->
    rendered op (String "{" (ds +++ String "}" t)) (str_int (w + 1) +++ g).

(** [inst] is the instruction of [op]: the gate its template, filled in
    from [op], evaluates to. *)
Definition translated (B : Backend) (op : Operation) (inst : Instruction) : Prop :=
  exists t g,
    dict_get SNOWFLURRY_OPERATION_MAP (name op) = Some (Template t) /\
    rendered op t g /\
    inst = julia_gate B g.



(** A measurement that no block of [measure] handles: it is none of the
    four named classes and no [StateMeasurement]. *)
Definition unhandled (mp : MeasurementProcess) : Prop :=
  mp_class mp = OtherMP /\ is_StateMeasurement mp = false.

(** A variance as PennyLane has it: a [StateMeasurement] that is none of
    the four named classes. *)
Definition var_mp : MeasurementProcess :=
  {| mp_class := OtherMP; is_StateMeasurement := true;
     obs := Some pauli_z_obs; mp_wires := [1%Z; 0%Z] |}.

(** * Properties *)

Example format_rx :
  format "rotation_x({1},{0})" [PyFloat "0.5"; PyInt 3] = Val "rotation_x(3,0.5)".
Proof. reflexivity. Qed.

Example format_short :
  format "control_x({0},{1})" [PyInt 1] = Exc IndexError.
Proof. reflexivity. Qed.

(** Unfolds the plumbing of the monad and nothing else. *)
Ltac run_py :=
  cbv beta iota delta
    [bind ret raise diverge lift emit print call get_sf_circuit set_sf_circuit
     get_currentClient set_currentClient set_result_state push deref].

Tactic Notation "run_py" "in" hyp(H) :=
  cbv beta iota delta
    [bind ret raise diverge lift emit print call get_sf_circuit set_sf_circuit
     get_currentClient set_currentClient set_result_state push deref] in H.

(** ** The translation loop *)

Section Translation.

Context (B : Backend).

Lemma convert_operation_substitutes (op : Operation) (m : Main B) :
  substitutes op ->
  exists m',
    convert_operation B op m = Returned tt m' /\
    instructions (sf_circuit m') = instructions (sf_circuit m) ++ emitted B op /\
    qubit_count (sf_circuit m') = qubit_count (sf_circuit m) /\
    bit_count (sf_circuit m') = bit_count (sf_circuit m) /\
    currentClient m' = currentClient m /\
    trace m' = trace m ++ diagnostic op.
Proof.
  intros Hs. unfold convert_operation, emitted, diagnostic, substitutes in *.
  destruct (dict_get SNOWFLURRY_OPERATION_MAP (name op)) as [[t|]|].
  - destruct (Hs t eq_refl) as [g Hg]. rewrite Hg.
    eexists; split; [reflexivity|]. cbn. rewrite app_nil_r. auto.
  - eexists; split; [reflexivity|]. cbn. rewrite app_nil_r. auto.
  - eexists; split; [reflexivity|]. cbn. rewrite app_nil_r. auto.
Qed.

Lemma convert_loop (ops : list Operation) :
  Forall substitutes ops ->
  forall m : Main B,
  exists m',
    for_each B ops (convert_operation B) m = Returned tt m' /\
    instructions (sf_circuit m') =
      instructions (sf_circuit m) ++ flat_map (emitted B) ops /\
    qubit_count (sf_circuit m') = qubit_count (sf_circuit m) /\
    bit_count (sf_circuit m') = bit_count (sf_circuit m) /\
    currentClient m' = currentClient m /\
    trace m' = trace m ++ flat_map diagnostic ops.
Proof.
  induction 1 as [|op ops Hop _ IH]; intros m.
  - exists m. cbn. rewrite !app_nil_r. auto 6.
  - destruct (convert_operation_substitutes op m Hop)
      as (m1 & E1 & I1 & Q1 & B1 & C1 & T1).
    destruct (IH m1) as (m2 & E2 & I2 & Q2 & B2 & C2 & T2).
    exists m2. cbn [for_each flat_map]. unfold bind at 1. rewrite E1.
    split; [exact E2|].
    rewrite I2, I1, T2, T1, Q2, Q1, B2, B1, C2, C1, <- !app_assoc. auto 6.
Qed.

Lemma implemented_substitutes (op : Operation) :
  implemented op -> substitutes op.
Proof.
  intros (t & g & Ht & Hg) t' Ht'. rewrite Ht in Ht'.
  injection Ht' as <-. eauto.
Qed.

Lemma implemented_emitted (ops : list Operation) :
  Forall implemented ops ->
  Forall2 (corresponds B) ops (flat_map (emitted B) ops) /\
  flat_map diagnostic ops = [].
Proof.
  induction 1 as [|op ops (t & g & Ht & Hg) _ [IH1 IH2]]; cbn; [auto|].
  unfold emitted at 1, diagnostic at 1. rewrite Ht, Hg. cbn. split; [|exact IH2].
  constructor; [|exact IH1]. exists t, g. auto.
Qed.

(** The argument a template finds in the slot of the [j]-th wire is that
    wire plus one. *)
Lemma wire_arguments_shifted (op : Operation) (j : nat) (w : Z) :
  nth_error (wires op) j = Some w ->
  nth_error (gate_arguments op) (List.length (parameters op) + j)
  = Some (PyInt (w + 1)).
Proof.
  intros H. unfold gate_arguments.
  rewrite nth_error_app2 by lia.
  replace (List.length (parameters op) + j - List.length (parameters op))%nat
    with j by lia.
  rewrite nth_error_map, H. reflexivity.
Qed.

Lemma for_each_app {A : Type} (l1 l2 : list A) (body : A -> Py B unit)
    (m : Main B) :
  for_each B (l1 ++ l2) body m =
  match for_each B l1 body m with
  | Returned _ m1 => for_each B l2 body m1
  | Raised e m1 => Raised e m1
  | Diverged => Diverged
  end.
Proof.
  revert m. induction l1 as [|x l1 IH]; intros m; [reflexivity|].
  cbn [app for_each]. unfold bind.
  destruct (body x m) as [[] m1|e m1|]; [apply IH|reflexivity|reflexivity].
Qed.

(** Whatever the loop does next, what is in the circuit and in the trace
    stays there. *)
Lemma convert_loop_extends (ops : list Operation) (m : Main B) :
  exists m' insts tr,
    final_session (for_each B ops (convert_operation B) m) = Some m' /\
    instructions (sf_circuit m') = instructions (sf_circuit m) ++ insts /\
    trace m' = trace m ++ tr.
Proof.
  revert m. induction ops as [|op ops IH]; intros m.
  - exists m, [], []. cbn. rewrite !app_nil_r. auto.
  - cbn [for_each]. unfold bind.
    assert (Hop : (exists m1 i1 t1,
                     convert_operation B op m = Returned tt m1 /\
                     instructions (sf_circuit m1) = instructions (sf_circuit m) ++ i1 /\
                     trace m1 = trace m ++ t1) \/
                  (exists e, convert_operation B op m = Raised e m)).
    { unfold convert_operation.
      destruct (dict_get SNOWFLURRY_OPERATION_MAP (name op)) as [[t|]|].
      - destruct (format t (gate_arguments op)) as [g|e].
        + left. eexists _, [_], []. split; [reflexivity|]. cbn.
          rewrite app_nil_r. auto.
        + right. exists e. reflexivity.
      - left. eexists _, [], [_]. split; [reflexivity|]. cbn.
        rewrite app_nil_r. auto.
      - left. eexists _, [], [_]. split; [reflexivity|]. cbn.
        rewrite app_nil_r. auto. }
    destruct Hop as [(m1 & i1 & t1 & E1 & I1 & T1)|[e E1]]; rewrite E1.
    + destruct (IH m1) as (m2 & i2 & t2 & E2 & I2 & T2).
      exists m2, (i1 ++ i2), (t1 ++ t2). split; [exact E2|].
      rewrite I2, I1, T2, T1, <- !app_assoc. auto.
    + exists m, [], []. cbn. rewrite !app_nil_r. auto.
Qed.

(** C7, as the code has it.  An operation [u] whose name is not in the
    table and that the loop visits (it is not a state preparation at the
    head of the circuit, which is dropped before the loop), followed by a
    supported operation [s], the operations before [s] having the arguments
    their templates ask for: whatever happens after [s], the target circuit
    holds the instruction of [s] and the trace holds the message with the
    name of [u]; [u] itself adds no instruction, and when the operations
    after [s] are well formed too, [convert_circuit] returns and the
    circuit is exactly what the visited operations emit, in order. *)
Theorem unknown_operation_skipped
    (self : PennylaneConverter) (tape : QuantumScript) (m : Main B)
    (pre mid post : list Operation) (u s : Operation) (t g : string) :
  visited_operations B tape = pre ++ u :: mid ++ s :: post ->
  dict_get SNOWFLURRY_OPERATION_MAP (name u) = None ->
  dict_get SNOWFLURRY_OPERATION_MAP (name s) = Some (Template t) ->
  format t (gate_arguments s) = Val g ->
  Forall substitutes (pre ++ mid) ->
  emitted B u = [] /\
  (exists m',
     final_session (convert_circuit B self tape m) = Some m' /\
     In (julia_gate B g) (instructions (sf_circuit m')) /\
     In (EvPrint (name u +++ " is not supported by this device. skipping..."))
        (trace m')) /\
  (Forall substitutes post ->
   exists m',
     convert_circuit B self tape m = Returned (the_sf_circuit, false) m' /\
     instructions (sf_circuit m') = flat_map (emitted B) (visited_operations B tape) /\
     trace m' = trace m ++ flat_map diagnostic (visited_operations B tape)).
Proof.
  intros Hvis Hu Hs Hg Hwf.
  assert (Hsub_u : substitutes u).
  { intros t' Ht'. rewrite Hu in Ht'. discriminate. }
  assert (Hsub_s : substitutes s).
  { intros t' Ht'. rewrite Hs in Ht'. injection Ht' as <-. eauto. }
  assert (Hhead : Forall substitutes ((pre ++ u :: mid) ++ [s])).
  { apply Forall_app in Hwf as [Hpre Hmid].
    repeat (apply Forall_app; split); auto. }
  assert (Hemit_s : emitted B s = [julia_gate B g]).
  { unfold emitted. rewrite Hs, Hg. reflexivity. }
  assert (Hdiag_u : diagnostic u =
            [EvPrint (name u +++ " is not supported by this device. skipping...")]).
  { unfold diagnostic. rewrite Hu. reflexivity. }
  set (c0 := {| qubit_count := List.length (op_wires tape);
                bit_count := default_bit_count B (List.length (op_wires tape));
                instructions := [] |}).
  assert (Hshape : visited_operations B tape = ((pre ++ u :: mid) ++ [s]) ++ post).
  { rewrite Hvis, <- !app_assoc. reflexivity. }
  split; [unfold emitted; rewrite Hu; reflexivity|]. split.
  - destruct (convert_loop _ Hhead (with_sf_circuit c0 m))
      as (m1 & E1 & I1 & _ & _ & _ & T1).
    destruct (convert_loop_extends post m1) as (m2 & i2 & t2 & E2 & I2 & T2).
    exists m2. split; [|split].
    + unfold convert_circuit, bind, set_sf_circuit. fold c0.
      rewrite Hshape, for_each_app, E1.
      destruct (for_each B post (convert_operation B) m1) as [[] m3|e m3|];
        cbn in E2 |- *; [exact E2|exact E2|discriminate].
    + rewrite I2, I1, !flat_map_app. cbn [flat_map]. rewrite Hemit_s.
      rewrite !in_app_iff. cbn. intuition.
    + rewrite T2, T1, !flat_map_app. cbn [flat_map]. rewrite Hdiag_u.
      rewrite !in_app_iff. cbn. intuition.
  - intros Hpost.
    assert (Hall : Forall substitutes (visited_operations B tape)).
    { rewrite Hshape. apply Forall_app. auto. }
    destruct (convert_loop _ Hall (with_sf_circuit c0 m))
      as (m' & E & I & _ & _ & _ & T).
    exists m'. unfold convert_circuit, bind, set_sf_circuit. fold c0.
    rewrite E. cbn in I, T. auto.
Qed.

End Translation.

Example bell_circuit_translated :
  exists m',
    convert_circuit echo_backend (converter_of (tape_of bell_ops []))
      (tape_of bell_ops []) start = Returned (the_sf_circuit, false) m' /\
    instructions (sf_circuit m') =
      [julia_gate echo_backend "hadamard(1)";
       julia_gate echo_backend "control_x(1,2)"].
Proof. eexists. split; reflexivity. Qed.

(** C7 as stated fails on a state preparation at the head of the circuit:
    [BasisState] is not in the table and is followed by a supported gate,
    the gate is emitted, and nothing at all is printed. *)
Lemma leading_state_prep_not_diagnosed :
  dict_get SNOWFLURRY_OPERATION_MAP (name basis_state) = None /\
  implemented pauli_x0 /\
  exists m',
    convert_circuit echo_backend
      (converter_of (tape_of [basis_state; pauli_x0] []))
      (tape_of [basis_state; pauli_x0] []) start
    = Returned (the_sf_circuit, false) m' /\
    instructions (sf_circuit m') = [julia_gate echo_backend "sigma_x(1)"] /\
    trace m' = [].
Proof.
  split; [reflexivity|]. split.
  - do 2 eexists. split; reflexivity.
  - eexists. split; [reflexivity|]. split; reflexivity.
Qed.

Lemma unknown_operation_skipped_witness :
  emitted echo_backend unknown_op = [] /\
  (exists m',
     final_session
       (convert_circuit echo_backend
          (converter_of (tape_of [unknown_op; pauli_x0] []))
          (tape_of [unknown_op; pauli_x0] []) start) = Some m' /\
     In (julia_gate echo_backend "sigma_x(1)") (instructions (sf_circuit m')) /\
     In (EvPrint "Foo is not supported by this device. skipping...") (trace m')) /\
  (Forall substitutes [] ->
   exists m',
     convert_circuit echo_backend
       (converter_of (tape_of [unknown_op; pauli_x0] []))
       (tape_of [unknown_op; pauli_x0] []) start
     = Returned (the_sf_circuit, false) m' /\
     instructions (sf_circuit m') =
       flat_map (emitted echo_backend) [unknown_op; pauli_x0] /\
     trace m' = [] ++ flat_map diagnostic [unknown_op; pauli_x0]).
Proof.
  apply (unknown_operation_skipped echo_backend
           (converter_of (tape_of [unknown_op; pauli_x0] []))
           (tape_of [unknown_op; pauli_x0] []) start
           [] [] [] unknown_op pauli_x0 "sigma_x({0})" "sigma_x(1)").
  - reflexivity.
  - reflexivity.
  - reflexivity.
  - reflexivity.
  - constructor.
Defined.

(** ** Texts of instructions *)

Lemma occurs_append (c : ascii) (s1 s2 : string) :
  occurs c (s1 +++ s2) = occurs c s1 || occurs c s2.
Proof.
  induction s1 as [|a s1 IH]; cbn; [reflexivity|].
  rewrite IH, orb_assoc. reflexivity.
Qed.

(** A text without the first character of [needle] does not contain it. *)
Lemma contains_first_char (c : ascii) (needle hay : string) :
  occurs c hay = false -> contains (String c needle) hay = false.
Proof.
  induction hay as [|a hay IH]; cbn; [reflexivity|]. intros H.
  apply orb_false_iff in H as [Ha Hrest].
  destruct (Ascii.ascii_dec c a) as [->|_].
  - rewrite Ascii.eqb_refl in Ha. discriminate.
  - cbn. apply IH, Hrest.
Qed.

Lemma occurs_cons (c a : ascii) (s : string) :
  occurs c (String a s) = Ascii.eqb a c || occurs c s.
Proof. reflexivity. Qed.

Lemma not_digit_differs (c a : ascii) :
  is_digit c = false -> is_digit a = true -> Ascii.eqb a c = false.
Proof.
  intros Hc Ha. apply not_true_is_false. intros E.
  apply Ascii.eqb_eq in E. subst a. congruence.
Qed.

Lemma occurs_string_of_uint (c : ascii) (d : Decimal.uint) :
  is_digit c = false -> occurs c (NilEmpty.string_of_uint d) = false.
Proof.
  intros Hc.
  induction d as [|d IH|d IH|d IH|d IH|d IH|d IH|d IH|d IH|d IH|d IH];
    cbn [NilEmpty.string_of_uint]; [reflexivity|..];
    rewrite occurs_cons, IH, orb_false_r;
    apply (not_digit_differs c _ Hc); reflexivity.
Qed.

(** [str] of an int is made of digits and, at most, a sign. *)
Lemma occurs_str_int (c : ascii) (n : Z) :
  is_digit c = false -> c <> "-"%char -> occurs c (str_int n) = false.
Proof.
  intros Hd Hm. unfold str_int, NilZero.string_of_int.
  assert (Hu : forall d, occurs c (NilZero.string_of_uint d) = false).
  { intros d. unfold NilZero.string_of_uint.
    destruct d; try apply (occurs_string_of_uint c _ Hd).
    rewrite occurs_cons. cbn [occurs]. rewrite orb_false_r.
    apply (not_digit_differs c _ Hd); reflexivity. }
  destruct (Z.to_int n) as [d|d]; [apply Hu|].
  rewrite occurs_cons, Hu, orb_false_r.
  apply not_true_is_false. intros E. apply Ascii.eqb_eq in E. congruence.
Qed.

Lemma prefix_append (s t : string) : String.prefix s (s +++ t) = true.
Proof.
  induction s as [|a s IH]; cbn; [destruct t; reflexivity|].
  destruct (Ascii.ascii_dec a a); [exact IH|contradiction].
Qed.

Lemma contains_append_right (needle s t : string) :
  contains needle t = true -> contains needle (s +++ t) = true.
Proof.
  intros H. induction s as [|a s IH]; cbn; [exact H|].
  rewrite IH. apply orb_true_r.
Qed.

Lemma contains_unfold (needle hay : string) :
  contains needle hay =
  String.prefix needle hay ||
  match hay with
  | EmptyString => false
  | String _ rest => contains needle rest
  end.
Proof. destruct hay; reflexivity. Qed.

Lemma contains_prefix (needle t : string) : contains needle (needle +++ t) = true.
Proof. rewrite contains_unfold, prefix_append. reflexivity. Qed.

Lemma substring_whole (s : string) : substring 0 (String.length s) s = s.
Proof. induction s as [|a s IH]; cbn; [reflexivity|]. rewrite IH. reflexivity. Qed.

Lemma string_drop_append (s t : string) :
  string_drop (String.length s) (s +++ t) = t.
Proof.
  unfold string_drop. induction s as [|a s IH]; cbn.
  - rewrite Nat.sub_0_r. apply substring_whole.
  - exact IH.
Qed.

Lemma line_of_append (s t : string) :
  occurs "010" s = false -> line_of (s +++ nl +++ t) = s.
Proof.
  induction s as [|a s IH]; intros H; [reflexivity|].
  rewrite occurs_cons in H. apply orb_false_iff in H as [Ha Hs].
  cbn [append line_of]. rewrite Ha, (IH Hs). reflexivity.
Qed.

Lemma after_line_append (s t : string) :
  occurs "010" s = false -> after_line (s +++ nl +++ t) = nl +++ t.
Proof.
  induction s as [|a s IH]; intros H; [reflexivity|].
  rewrite occurs_cons in H. apply orb_false_iff in H as [Ha Hs].
  cbn [append after_line]. rewrite Ha. apply (IH Hs).
Qed.

(** The pattern of the gate name finds the symbol of a gate. *)
Lemma re_search_gate_finds (symbol rest : string) :
  occurs "010" symbol = false ->
  re_search_gate ("Gate Object: " +++ symbol +++ nl +++ "Connected_qubits" +++ rest)
  = Some symbol.
Proof.
  intros H.
  set (tail := "Connected_qubits" +++ rest).
  assert (Hdrop : string_drop 13 ("Gate Object: " +++ symbol +++ nl +++ tail)
                  = symbol +++ nl +++ tail)
    by exact (string_drop_append "Gate Object: " _).
  assert (Hpre : String.prefix "Gate Object: "
                   ("Gate Object: " +++ symbol +++ nl +++ tail) = true)
    by apply prefix_append.
  assert (Hpost : String.prefix (nl +++ "Connected_qubits") (nl +++ tail) = true)
    by exact (prefix_append (nl +++ "Connected_qubits") rest).
  remember ("Gate Object: " +++ symbol +++ nl +++ tail) as text eqn:Etext.
  destruct text as [|a text]; [discriminate Etext|].
  cbn [re_search_gate]. rewrite Hpre, Hdrop, (after_line_append _ _ H), Hpost.
  rewrite (line_of_append _ _ H). reflexivity.
Qed.

Lemma try_classify_readout (q b : Z) (op_data : option OpData) :
  try_classify (Readout q b) op_data
  = (Some {| gate := "Readout"; connected_qubits := [q] |}, false).
Proof.
  unfold try_classify.
  assert (Hg : contains "Gate Object" (str_inst (Readout q b)) = false).
  { apply contains_first_char. cbn [str_inst]. unfold nl.
    rewrite !occurs_append, !occurs_str_int by (reflexivity || discriminate).
    reflexivity. }
  assert (Hr : contains "Readout" (str_inst (Readout q b)) = true).
  { cbn [str_inst].
    exact (contains_append_right "Readout" "Explicit " _ (contains_prefix "Readout" _)). }
  rewrite Hg, Hr. reflexivity.
Qed.

Lemma try_classify_gate (symbol : string) (qs : list Z) (operator : string)
    (op_data : option OpData) :
  occurs "010" symbol = false ->
  fst (try_classify (Gate symbol qs operator) op_data)
  = Some {| gate := symbol; connected_qubits := qs |}.
Proof.
  intros H. unfold try_classify.
  assert (Hg : contains "Gate Object" (str_inst (Gate symbol qs operator)) = true).
  { cbn [str_inst]. exact (contains_prefix "Gate Object" _). }
  assert (Hs : re_search_gate (str_inst (Gate symbol qs operator)) = Some symbol).
  { cbn [str_inst]. apply (re_search_gate_finds symbol _ H). }
  rewrite Hg, Hs. cbn [get_connected_qubits get_connected_qubit].
  destruct (contains "Readout" (str_inst (Gate symbol qs operator))); reflexivity.
Qed.

Lemma try_classify_plain (inst : Instruction) (op_data : option OpData) :
  plain inst = true -> fst (try_classify inst op_data) = Some (describe inst).
Proof.
  destruct inst as [symbol qs operator|q b|text qs]; cbn [plain describe].
  - intros H. apply try_classify_gate. apply negb_true_iff, H.
  - intros _. rewrite try_classify_readout. reflexivity.
  - discriminate.
Qed.

(** ** Introspection and readouts *)

Section Readouts.

Context (B : Backend).

Lemma dictionary_loop_length (insts : list Instruction) :
  forall (op_data : option OpData) (ops l : list OpData) (m m' : Main B),
    dictionary_loop B insts op_data ops m = Returned l m' ->
    List.length l = (List.length ops + List.length insts)%nat.
Proof.
  induction insts as [|inst insts IH]; intros op_data ops l m m' H.
  - cbn in H. injection H as <- _. cbn. lia.
  - cbn [dictionary_loop] in H.
    destruct (try_classify inst op_data) as [[d|] raised]; unfold bind in H.
    + destruct raised; cbn in H; apply IH in H;
        rewrite H, length_app; cbn; lia.
    + destruct raised; cbn in H; discriminate.
Qed.

(** The list of [get_circuit_as_dictionary] has one entry per instruction,
    classified or not. *)
Lemma dictionary_one_entry_per_instruction (l : list OpData) (m m' : Main B) :
  get_circuit_as_dictionary B m = Returned l m' ->
  List.length l = List.length (instructions (sf_circuit m)).
Proof.
  unfold get_circuit_as_dictionary, bind, get_sf_circuit. intros H.
  apply dictionary_loop_length in H. exact H.
Qed.

(** The search of [apply_single_readout] compares a list with an int and
    so never finds anything. *)
Lemma readout_never_found (ops : list OpData) (wire : Z) :
  readout_found ops wire = false.
Proof.
  unfold readout_found. induction ops as [|op ops IH]; [reflexivity|].
  cbn [existsb]. rewrite IH. cbn [py_eq]. rewrite andb_false_r. reflexivity.
Qed.

Lemma apply_single_readout_pushes (wire : Z) (l : list OpData) (m m' : Main B) :
  get_circuit_as_dictionary B m = Returned l m' ->
  apply_single_readout B wire m
  = Returned tt (pushed (Readout (wire + 1) (wire + 1)) m').
Proof.
  intros H. unfold apply_single_readout, bind. rewrite H, readout_never_found.
  reflexivity.
Qed.

Lemma dictionary_loop_keeps_circuit (insts : list Instruction) :
  forall (op_data : option OpData) (ops l : list OpData) (m m' : Main B),
    dictionary_loop B insts op_data ops m = Returned l m' ->
    sf_circuit m' = sf_circuit m.
Proof.
  induction insts as [|inst insts IH]; intros op_data ops l m m' H.
  - cbn in H. injection H as _ <-. reflexivity.
  - cbn [dictionary_loop] in H.
    destruct (try_classify inst op_data) as [[d|] raised]; unfold bind in H.
    + destruct raised; cbn in H; apply IH in H; exact H.
    + destruct raised; cbn in H; discriminate.
Qed.

(** The circuit [remove_readouts] returns has the instructions of the
    current circuit, readouts and all. *)
Lemma remove_readouts_copies (c : QuantumCircuit) (m m' : Main B) :
  remove_readouts B m = Returned c m' ->
  instructions c = instructions (sf_circuit m) /\
  qubit_count c = qubit_count (sf_circuit m) /\
  bit_count c = bit_count (sf_circuit m).
Proof.
  unfold remove_readouts, get_circuit_as_dictionary. run_py.
  destruct (dictionary_loop B (instructions (sf_circuit m)) None [] m)
    as [l m1|e m1|] eqn:E; intros H; try discriminate H.
  apply dictionary_loop_keeps_circuit in E.
  injection H as <- _. cbn. rewrite E. auto.
Qed.

(** On a circuit of gates and readouts as the docstring shows them, the
    list has the dictionary of each instruction, in the order of the
    circuit. *)
Lemma dictionary_loop_plain (insts : list Instruction) :
  forallb plain insts = true ->
  forall (op_data : option OpData) (ops : list OpData) (m : Main B),
  exists m',
    dictionary_loop B insts op_data ops m
    = Returned (ops ++ map describe insts) m' /\
    sf_circuit m' = sf_circuit m.
Proof.
  induction insts as [|inst insts IH]; intros Hall op_data ops m.
  - exists m. cbn. rewrite app_nil_r. auto.
  - cbn [forallb] in Hall. apply andb_true_iff in Hall as [Hinst Hrest].
    cbn [dictionary_loop map].
    pose proof (try_classify_plain inst op_data Hinst) as Hc.
    destruct (try_classify inst op_data) as [od raised]. cbn in Hc. subst od.
    unfold bind.
    destruct raised; cbn;
      match goal with
      | |- context [dictionary_loop B insts ?od ?ops' ?m1] =>
          destruct (IH Hrest od ops' m1) as (m' & E & C)
      end;
      exists m'; rewrite E, <- app_assoc; auto.
Qed.

Lemma plain_circuit_dictionary (m : Main B) :
  forallb plain (instructions (sf_circuit m)) = true ->
  exists m',
    get_circuit_as_dictionary B m
    = Returned (map describe (instructions (sf_circuit m))) m' /\
    sf_circuit m' = sf_circuit m.
Proof.
  intros H. unfold get_circuit_as_dictionary. run_py.
  exact (dictionary_loop_plain _ H None [] m).
Qed.

(** On such a circuit [apply_single_readout] always returns, and always
    with one more readout. *)
Lemma apply_single_readout_plain (wire : Z) (m : Main B) :
  forallb plain (instructions (sf_circuit m)) = true ->
  exists m',
    apply_single_readout B wire m = Returned tt m' /\
    instructions (sf_circuit m')
    = instructions (sf_circuit m) ++ [Readout (wire + 1) (wire + 1)].
Proof.
  intros H. destruct (plain_circuit_dictionary m H) as (m1 & E & C).
  exists (pushed (Readout (wire + 1) (wire + 1)) m1).
  split; [exact (apply_single_readout_pushes wire _ m m1 E)|].
  cbn. rewrite C. reflexivity.
Qed.

(** Two calls leave two readouts of the wire, whatever the circuit of
    gates and readouts they start from. *)
Lemma apply_single_readout_twice (wire : Z) (m : Main B) :
  forallb plain (instructions (sf_circuit m)) = true ->
  exists m',
    bind (apply_single_readout B wire) (fun _ => apply_single_readout B wire) m
    = Returned tt m' /\
    instructions (sf_circuit m')
    = instructions (sf_circuit m)
      ++ [Readout (wire + 1) (wire + 1); Readout (wire + 1) (wire + 1)].
Proof.
  intros H. destruct (apply_single_readout_plain wire m H) as (m1 & E1 & I1).
  assert (H1 : forallb plain (instructions (sf_circuit m1)) = true).
  { rewrite I1, forallb_app, H. reflexivity. }
  destruct (apply_single_readout_plain wire m1 H1) as (m2 & E2 & I2).
  exists m2. unfold bind. rewrite E1. split; [exact E2|].
  rewrite I2, I1, <- app_assoc. reflexivity.
Qed.

End Readouts.

(** C9, at a failing circuit.  An instruction that is neither a gate nor a
    readout, after a Hadamard gate: [get_circuit_as_dictionary] returns, it
    prints nothing, and the entry for the unclassified instruction is a
    second copy of the entry of the Hadamard gate. *)
Theorem unclassified_instruction_gets_stale_entry :
  get_circuit_as_dictionary echo_backend
    (session echo_backend (circuit_of [hadamard_gate; barrier]))
  = Returned
      [ {| gate := "Snowflurry.Hadamard"; connected_qubits := [1%Z] |};
        {| gate := "Snowflurry.Hadamard"; connected_qubits := [1%Z] |} ]
      (session echo_backend (circuit_of [hadamard_gate; barrier])).
Proof. reflexivity. Qed.

(** The same when the gate name cannot be parsed: the message is printed
    and the stale entry is appended all the same. *)
Example unparsed_gate_gets_stale_entry :
  exists m',
    get_circuit_as_dictionary echo_backend
      (session echo_backend (circuit_of [hadamard_gate; rotation_gate]))
    = Returned
        [ {| gate := "Snowflurry.Hadamard"; connected_qubits := [1%Z] |};
          {| gate := "Snowflurry.Hadamard"; connected_qubits := [1%Z] |} ]
        m' /\
    trace m' = [EvPrint ("Error while parsing " +++ str_inst rotation_gate)].
Proof. eexists. split; reflexivity. Qed.

(** With the unclassified instruction first, the local [op_data] is not
    bound yet and the method raises. *)
Example unclassified_first_instruction_raises :
  get_circuit_as_dictionary echo_backend
    (session echo_backend (circuit_of [barrier; hadamard_gate]))
  = Raised UnboundLocalError
      (session echo_backend (circuit_of [barrier; hadamard_gate])).
Proof. reflexivity. Qed.

Example docstring_dictionary :
  get_circuit_as_dictionary echo_backend
    (session echo_backend
       (circuit_of [hadamard_gate; Gate "Snowflurry.ControlX" [2%Z; 1%Z] "";
                    Readout 1 1]))
  = Returned
      [ {| gate := "Snowflurry.Hadamard"; connected_qubits := [1%Z] |};
        {| gate := "Snowflurry.ControlX"; connected_qubits := [2%Z; 1%Z] |};
        {| gate := "Readout"; connected_qubits := [1%Z] |} ]
      (session echo_backend
         (circuit_of [hadamard_gate; Gate "Snowflurry.ControlX" [2%Z; 1%Z] "";
                      Readout 1 1])).
Proof. reflexivity. Qed.

(** C2, at a failing circuit.  On a circuit with a Hadamard gate and a
    readout, [remove_readouts] returns a circuit with the same counts that
    still holds the readout. *)
Theorem remove_readouts_keeps_readout :
  exists c m',
    remove_readouts echo_backend (session echo_backend measured_circuit)
    = Returned c m' /\
    qubit_count c = qubit_count measured_circuit /\
    bit_count c = bit_count measured_circuit /\
    instructions c = [hadamard_gate; Readout 1 1] /\
    existsb is_Readout (instructions c) = true.
Proof. do 2 eexists. split; [cbv; reflexivity|]. cbn. auto. Qed.

(** C3, at a failing session.  Two calls of [apply_single_readout] on wire
    0 of an empty one-qubit circuit leave two readouts of qubit 1. *)
Theorem apply_single_readout_twice_adds_two :
  exists m',
    bind (apply_single_readout echo_backend 0)
         (fun _ => apply_single_readout echo_backend 0)
         (session echo_backend (empty_circuit 1))
    = Returned tt m' /\
    instructions (sf_circuit m') = [Readout 1 1; Readout 1 1].
Proof. eexists. split; [cbv; reflexivity|reflexivity]. Qed.

(** ** Frequency tables *)

Lemma dict_get_set_same {V : Type} (d : dict V) (k : string) (v : V) :
  dict_get (dict_set d k v) k = Some v.
Proof.
  induction d as [|[k' v'] d IH]; cbn.
  - rewrite String.eqb_refl. reflexivity.
  - destruct (String.eqb k k') eqn:E; cbn; rewrite E; [reflexivity|exact IH].
Qed.

Lemma dict_get_set_other {V : Type} (d : dict V) (k x : string) (v : V) :
  x <> k -> dict_get (dict_set d k v) x = dict_get d x.
Proof.
  intros Hne. induction d as [|[k' v'] d IH]; cbn.
  - destruct (String.eqb_spec x k); [contradiction|reflexivity].
  - destruct (String.eqb_spec k k') as [->|Hk]; cbn.
    + destruct (String.eqb_spec x k'); [contradiction|reflexivity].
    + rewrite IH. reflexivity.
Qed.

Lemma total_dict_set (d : dict nat) (x : string) (v : nat) :
  (total (dict_set d x v) + match dict_get d x with Some n => n | None => 0 end
   = total d + v)%nat.
Proof.
  unfold total. induction d as [|[k w] d IH]; cbn; [lia|].
  destruct (String.eqb x k) eqn:E; cbn; unfold list_sum in *; lia.
Qed.

Lemma total_tally (d : dict nat) (x : string) :
  total (tally d x) = S (total d).
Proof.
  unfold tally. pose proof (total_dict_set d x) as H.
  destruct (dict_get d x) as [n|].
  - specialize (H (n + 1)%nat). lia.
  - specialize (H 1%nat). lia.
Qed.

Lemma total_fold_tally (l : list string) (d : dict nat) :
  total (fold_left tally l d) = (total d + List.length l)%nat.
Proof.
  revert d. induction l as [|x l IH]; intros d; cbn [fold_left List.length]; [lia|].
  rewrite IH, total_tally. lia.
Qed.

(** The values of [Counter(l)] sum to the length of [l]. *)
Lemma total_Counter (l : list string) : total (Counter l) = List.length l.
Proof. exact (total_fold_tally l []). Qed.

Lemma dict_get_fold_tally (l : list string) (d : dict nat) (x : string) :
  dict_get (fold_left tally l d) x =
  match count_occ string_dec l x, dict_get d x with
  | O, o => o
  | S n, Some v => Some (v + S n)%nat
  | S n, None => Some (S n)
  end.
Proof.
  revert d. induction l as [|y l IH]; intros d.
  - cbn. destruct (dict_get d x); reflexivity.
  - cbn [fold_left count_occ]. rewrite IH.
    destruct (string_dec y x) as [->|Hne].
    + unfold tally. rewrite dict_get_set_same.
      destruct (count_occ string_dec l x), (dict_get d x); f_equal; lia.
    + unfold tally. rewrite dict_get_set_other by congruence. reflexivity.
Qed.

(** [Counter(l)] maps each element of [l] to its number of occurrences
    and has no other key. *)
Lemma dict_get_Counter (l : list string) (x : string) :
  dict_get (Counter l) x =
  match count_occ string_dec l x with
  | O => None
  | S n => Some (S n)
  end.
Proof.
  unfold Counter. rewrite (dict_get_fold_tally l [] x). cbn.
  destruct (count_occ string_dec l x); reflexivity.
Qed.

(** ** What stays on the local simulator *)

Section Locality.

Context (B : Backend).

Lemma remote_events_app (l1 l2 : list Event) :
  remote_events (l1 ++ l2) = remote_events l1 ++ remote_events l2.
Proof. apply filter_app. Qed.

Lemma quiet_ret {A : Type} (a : A) : quiet (ret B a).
Proof.
  intros m. exists m, []. cbn. rewrite app_nil_r. auto.
Qed.

Lemma quiet_raise {A : Type} (e : Exn) : quiet (@raise B A e).
Proof.
  intros m. exists m, []. cbn. rewrite app_nil_r. auto.
Qed.


Lemma quiet_emit (e : Event) : is_remote_event e = false -> quiet (emit B e).
Proof.
  intros He m. exists (record e m), [e]. cbn. rewrite He. auto.
Qed.

Lemma quiet_print (text : string) : quiet (print B text).
Proof. apply quiet_emit. reflexivity. Qed.

Lemma quiet_get_sf_circuit : quiet (get_sf_circuit B).
Proof. intros m. exists m, []. cbn. rewrite app_nil_r. auto. Qed.





Lemma quiet_at_bind {A C : Type} (c : Py B A) (k : A -> Py B C) (m : Main B) :
  quiet_at c m ->
  (forall a m1, c m = Returned a m1 -> currentClient m1 = currentClient m ->
                quiet_at (k a) m1) ->
  quiet_at (bind c k) m.
Proof.
  intros (m1 & tr1 & F1 & C1 & T1 & R1) Hk. unfold quiet_at, bind.
  destruct (c m) as [a m1'|e m1'|] eqn:E; cbn in F1; [| |discriminate].
  - injection F1 as ->.
    destruct (Hk a m1 eq_refl C1) as (m2 & tr2 & F2 & C2 & T2 & R2).
    exists m2, (tr1 ++ tr2). split; [exact F2|].
    rewrite C2, C1, T2, T1, remote_events_app, R1, R2, app_assoc. auto.
  - injection F1 as ->. exists m1, tr1. cbn. auto.
Qed.

Lemma quiet_bind {A C : Type} (c : Py B A) (k : A -> Py B C) :
  quiet c -> (forall a, quiet (k a)) -> quiet (bind c k).
Proof.
  intros Hc Hk m. apply quiet_at_bind; [apply Hc|]. intros a m1 _ _. apply Hk.
Qed.


Lemma quiet_dictionary_loop (insts : list Instruction) :
  forall op_data ops, quiet (dictionary_loop B insts op_data ops).
Proof.
  induction insts as [|inst insts IH]; intros op_data ops; cbn [dictionary_loop].
  - apply quiet_ret.
  - destruct (try_classify inst op_data) as [od raised].
    apply quiet_bind.
    + destruct raised; [apply quiet_print|apply quiet_ret].
    + intros _. destruct od; [apply IH|apply quiet_raise].
Qed.

Lemma quiet_get_circuit_as_dictionary : quiet (get_circuit_as_dictionary B).
Proof.
  apply quiet_bind; [apply quiet_get_sf_circuit|].
  intros c. apply quiet_dictionary_loop.
Qed.























(** *** The remote path *)










End Locality.

(** ** The measurement dispatch *)

Section Dispatch.

Context (B : Backend).

Lemma for_each_push_returns {A : Type} (l : list A) (f : A -> Instruction) :
  forall m : Main B,
  exists m', for_each B l (fun x => push B (f x)) m = Returned tt m'.
Proof.
  induction l as [|x l IH]; intros m; cbn [for_each].
  - exists m. reflexivity.
  - unfold bind, push at 1. apply IH.
Qed.

(** C4.  A counts measurement without a client: once the readouts are
    applied, [measure] returns the table [Counter] builds from the
    outcomes of [simulate_shots] on the circuit with its readouts; when
    the backend gives one outcome per shot, the values of the table sum to
    [shots], and each outcome is mapped to the number of times it was
    observed.  The readouts are always applied when there is no
    observable, and also when there is one, with a wire, and the circuit
    is made of gates and readouts as the docstring shows them. *)
Theorem counts_sum_to_shots
    (fuel : nat) (self : PennylaneConverter) (mp : MeasurementProcess)
    (sf : CircuitRef) (shots : nat) (m : Main B) :
  mp_class mp = CountsMP ->
  currentClient m = None ->
  (forall c, List.length (simulate_shots B c shots) = shots) ->
  (forall m1,
     apply_readouts B (List.length (op_wires (circuit self))) (obs mp) m
     = Returned tt m1 ->
     let outcomes := simulate_shots B (sf_circuit m1) shots in
     measure B fuel self mp sf shots m
     = Returned (ResCounts (Counter outcomes))
                (record (EvCall c_simulate_shots) m1) /\
     total (Counter outcomes) = shots /\
     forall x, dict_get (Counter outcomes) x =
               match count_occ string_dec outcomes x with
               | O => None
               | S n => Some (S n)
               end) /\
  (obs mp = None ->
   exists m1,
     apply_readouts B (List.length (op_wires (circuit self))) (obs mp) m
     = Returned tt m1) /\
  (forall o w ws,
     obs mp = Some o -> obs_wires o = w :: ws ->
     forallb plain (instructions (sf_circuit m)) = true ->
     exists m1,
       apply_readouts B (List.length (op_wires (circuit self))) (obs mp) m
       = Returned tt m1).
Proof.
  intros Hk Hc Hshots. split; [|split].
  - intros m1 H1 outcomes. split; [|split].
    + unfold measure. rewrite Hk. cbn [MPClass_eqb]. unfold block at 1.
      unfold counts_branch, run_shots. run_py. rewrite Hc, H1. reflexivity.
    + rewrite total_Counter. apply Hshots.
    + intros x. apply dict_get_Counter.
  - intros Ho. rewrite Ho. cbn [apply_readouts]. apply for_each_push_returns.
  - intros o w ws Ho Hw Hplain. rewrite Ho. cbn [apply_readouts]. rewrite Hw.
    run_py. destruct (apply_single_readout_plain B w m Hplain) as (m1 & E & _).
    exists m1. exact E.
Qed.

(** C6.  A probabilities measurement returns what the backend answers for
    the current circuit, asked about all wires when the measurement has no
    wires and about its wires plus one otherwise; the circuit is left as
    it was and the only new event is that call. *)
Theorem probabilities_leave_circuit
    (fuel : nat) (self : PennylaneConverter) (mp : MeasurementProcess)
    (sf : CircuitRef) (shots : nat) (m : Main B) :
  mp_class mp = ProbabilityMP ->
  exists m',
    measure B fuel self mp sf shots m
    = Returned
        (ResProbabilities B
           (get_measurement_probabilities B (sf_circuit m)
              match mp_wires mp with
              | [] => None
              | ws => Some (map (fun i => (i + 1)%Z) ws)
              end))
        m' /\
    sf_circuit m' = sf_circuit m /\
    currentClient m' = currentClient m /\
    trace m' = trace m ++ [EvCall c_get_measurement_probabilities].
Proof.
  intros Hk. exists (record (EvCall c_get_measurement_probabilities) m).
  split; [|auto]. unfold measure. rewrite Hk. cbn [MPClass_eqb].
  unfold block, probability_branch. run_py.
  destruct (mp_wires mp); reflexivity.
Qed.

Lemma measured_in_turn_each fuel self sf shots mps (m : Main B) rs m' :
  measured_in_turn B fuel self sf shots mps m rs m' ->
  measure_each B fuel self mps sf shots m = Returned rs m' /\
  List.length rs = List.length mps.
Proof.
  induction 1 as [m|mp mps m r m1 rs m2 Hr _ [IH1 IH2]].
  - split; reflexivity.
  - cbn [measure_each]. unfold bind. rewrite Hr, IH1. cbn. auto.
Qed.

(** C10.  When every call of [measure] returns, one call per measurement
    in the order of the list and each on the session left by the one
    before, [measure_final_state] returns: the result of the only call
    when there is exactly one measurement, the tuple of the results in
    that order when there are two or more.  The current circuit is
    printed before returning. *)
Theorem measure_final_state_shape
    (fuel : nat) (self : PennylaneConverter) (tape : QuantumScript)
    (sf : CircuitRef) (batched : bool) (m m' : Main B) (rs : list (Result B)) :
  measured_in_turn B fuel self sf (shots_of B tape)
    (measurements (map_to_standard_wires B tape)) m rs m' ->
  List.length rs = List.length (measurements (map_to_standard_wires B tape)) /\
  (forall mp,
     measurements (map_to_standard_wires B tape) = [mp] ->
     exists r,
       rs = [r] /\
       measure B fuel self mp sf (shots_of B tape) m = Returned r m' /\
       measure_final_state B fuel self tape sf batched m
       = Returned r (record (EvJuliaPrint (sf_circuit m')) m')) /\
  (2 <= List.length (measurements (map_to_standard_wires B tape)) ->
   measure_final_state B fuel self tape sf batched m
   = Returned (ResTuple rs) (record (EvJuliaPrint (sf_circuit m')) m')).
Proof.
  intros H. pose proof (measured_in_turn_each _ _ _ _ _ _ _ _ H) as [Heach Hlen].
  split; [exact Hlen|]. unfold measure_final_state. fold (shots_of B tape).
  split.
  - intros mp Hone. rewrite Hone in *.
    inversion H as [|mp0 mps0 m0 r m1 rs0 m2 Hr Hrest]; subst.
    inversion Hrest; subst. exists r. split; [reflexivity|].
    split; [exact Hr|]. run_py. rewrite Hr. reflexivity.
  - intros Htwo.
    destruct (measurements (map_to_standard_wires B tape)) as [|mp [|mp' mps]];
      cbn in Htwo; try lia.
    run_py. rewrite Heach. reflexivity.
Qed.

End Dispatch.


Example all_fields_give_a_client :
  exists self m0,
    __init__ echo_backend (bell_tape []) "host" "user" "token" "project" start
    = Returned self m0 /\
    currentClient m0 = Some client_expression.
Proof. do 2 eexists. split; reflexivity. Qed.

(** With a client, a counts measurement is submitted and polled; nothing
    is simulated. *)
Example counts_on_hardware :
  exists m',
    measure echo_backend 5 (converter_of (bell_tape [counts_mp])) counts_mp
      the_sf_circuit 3 remote_session
    = Returned (ResRemote echo_backend "job") m' /\
    trace m' =
      [ EvCall c_submit_circuit; EvCall c_get_status;
        EvPrint "checking for status for circuit id job"; EvSleep;
        EvCall c_get_status; EvPrint "current status : succeeded";
        EvCall c_get_result ] /\
    instructions (sf_circuit m') = instructions (sf_circuit remote_session).
Proof. eexists. split; [cbv; reflexivity|split; reflexivity]. Qed.

Example polling_without_fuel_diverges :
  measure echo_backend 0 (converter_of (bell_tape [counts_mp])) counts_mp
    the_sf_circuit 3 remote_session = Diverged.
Proof. reflexivity. Qed.

Lemma counts_sum_to_shots_witness :
  (forall m1,
     apply_readouts echo_backend
       (List.length (op_wires (circuit (converter_of (bell_tape [counts_mp])))))
       (obs counts_mp) bell_session = Returned tt m1 ->
     let outcomes := simulate_shots echo_backend (sf_circuit m1) 3 in
     measure echo_backend 0 (converter_of (bell_tape [counts_mp])) counts_mp
       the_sf_circuit 3 bell_session
     = Returned (ResCounts (Counter outcomes))
                (record (EvCall c_simulate_shots) m1) /\
     total (Counter outcomes) = 3%nat /\
     forall x, dict_get (Counter outcomes) x =
               match count_occ string_dec outcomes x with
               | O => None
               | S n => Some (S n)
               end) /\
  (obs counts_mp = None ->
   exists m1,
     apply_readouts echo_backend
       (List.length (op_wires (circuit (converter_of (bell_tape [counts_mp])))))
       (obs counts_mp) bell_session = Returned tt m1) /\
  (forall o w ws,
     obs counts_mp = Some o -> obs_wires o = w :: ws ->
     forallb plain (instructions (sf_circuit bell_session)) = true ->
     exists m1,
       apply_readouts echo_backend
         (List.length (op_wires (circuit (converter_of (bell_tape [counts_mp])))))
         (obs counts_mp) bell_session = Returned tt m1).
Proof.
  apply (counts_sum_to_shots echo_backend 0
           (converter_of (bell_tape [counts_mp])) counts_mp the_sf_circuit 3
           bell_session).
  - reflexivity.
  - reflexivity.
  - intros c. reflexivity.
Defined.

Example counts_of_bell_circuit :
  exists m',
    measure echo_backend 0 (converter_of (bell_tape [counts_mp])) counts_mp
      the_sf_circuit 3 bell_session
    = Returned (ResCounts [("0", 3%nat)]) m' /\
    instructions (sf_circuit m') =
      instructions (sf_circuit bell_session) ++ [Readout 1 1; Readout 2 2] /\
    trace m' = [EvCall c_simulate_shots].
Proof. eexists. split; [cbv; reflexivity|split; reflexivity]. Qed.

Example Counter_keeps_first_seen_order :
  Counter ["11"; "00"; "11"; "11"] = [("11", 3%nat); ("00", 1%nat)].
Proof. reflexivity. Qed.

Lemma probabilities_leave_circuit_witness :
  exists m',
    measure echo_backend 0 (converter_of (bell_tape [probs_mp [0%Z; 1%Z]]))
      (probs_mp [0%Z; 1%Z]) the_sf_circuit 1 bell_session
    = Returned
        (ResProbabilities echo_backend
           (get_measurement_probabilities echo_backend (sf_circuit bell_session)
              (Some [1%Z; 2%Z])))
        m' /\
    sf_circuit m' = sf_circuit bell_session /\
    currentClient m' = currentClient bell_session /\
    trace m' = trace bell_session ++ [EvCall c_get_measurement_probabilities].
Proof.
  apply (probabilities_leave_circuit echo_backend 0
           (converter_of (bell_tape [probs_mp [0%Z; 1%Z]]))
           (probs_mp [0%Z; 1%Z]) the_sf_circuit 1 bell_session).
  reflexivity.
Defined.

(** C8 as stated fails: for a measurement no block of [measure] handles,
    [measure] does not raise, it returns. *)
Lemma unhandled_measurement_not_raised :
  mp_class shadow_mp = OtherMP /\
  is_StateMeasurement shadow_mp = false /\
  measure echo_backend 0 (converter_of (bell_tape [shadow_mp])) shadow_mp
    the_sf_circuit 1 bell_session
  = Returned ResNotImplementedError bell_session /\
  forall e m',
    measure echo_backend 0 (converter_of (bell_tape [shadow_mp])) shadow_mp
      the_sf_circuit 1 bell_session <> Raised e m'.
Proof.
  repeat split. intros e m' H. discriminate H.
Qed.

(** In a request for two measurements the marker sits in the tuple next to
    a result. *)
Example marker_beside_a_result :
  exists d m',
    measure_final_state echo_backend 0
      (converter_of (bell_tape [probs_mp []; shadow_mp]))
      (bell_tape [probs_mp []; shadow_mp]) the_sf_circuit false bell_session
    = Returned (ResTuple [ResProbabilities echo_backend d; ResNotImplementedError])
               m'.
Proof. do 2 eexists. cbv. reflexivity. Qed.

Lemma measure_final_state_shape_witness :
  exists rs m',
    List.length rs = 2%nat /\
    (forall mp,
       [probs_mp []; state_mp] = [mp] ->
       exists r,
         rs = [r] /\
         measure echo_backend 0
           (converter_of (bell_tape [probs_mp []; state_mp])) mp the_sf_circuit
           1 bell_session = Returned r m' /\
         measure_final_state echo_backend 0
           (converter_of (bell_tape [probs_mp []; state_mp]))
           (bell_tape [probs_mp []; state_mp]) the_sf_circuit false bell_session
         = Returned r (record (EvJuliaPrint (sf_circuit m')) m')) /\
    (2 <= 2 ->
     measure_final_state echo_backend 0
       (converter_of (bell_tape [probs_mp []; state_mp]))
       (bell_tape [probs_mp []; state_mp]) the_sf_circuit false bell_session
     = Returned (ResTuple rs) (record (EvJuliaPrint (sf_circuit m')) m')).
Proof.
  do 2 eexists.
  apply (measure_final_state_shape echo_backend 0
           (converter_of (bell_tape [probs_mp []; state_mp]))
           (bell_tape [probs_mp []; state_mp]) the_sf_circuit false bell_session).
  change (measurements (map_to_standard_wires echo_backend
                          (bell_tape [probs_mp []; state_mp])))
    with [probs_mp []; state_mp].
  eapply measured_next; [cbv; reflexivity|].
  eapply measured_next; [cbv; reflexivity|].
  apply measured_none.
Defined.

Example single_measurement_unwrapped :
  exists d m',
    measure_final_state echo_backend 0
      (converter_of (bell_tape [counts_mp])) (bell_tape [counts_mp])
      the_sf_circuit false bell_session
    = Returned (ResCounts d) m' /\ total d = 1%nat.
Proof. do 2 eexists. split; [cbv; reflexivity|reflexivity]. Qed.

(** A counts measurement with an observable gets the readout of the first
    wire of the observable only. *)
Example counts_with_observable :
  exists d m',
    measure echo_backend 0 (converter_of (bell_tape []))
      {| mp_class := CountsMP; is_StateMeasurement := false;
         obs := Some {| obs_wires := [1%Z; 0%Z]; has_matrix := true;
                        type_repr := "<class 'pennylane.ops.qubit.PauliZ'>" |};
         mp_wires := [1%Z; 0%Z] |}
      the_sf_circuit 2 bell_session
    = Returned (ResCounts d) m' /\
    total d = 2%nat /\
    instructions (sf_circuit m')
    = instructions (sf_circuit bell_session) ++ [Readout 2 2].
Proof. do 2 eexists. split; [cbv; reflexivity|split; reflexivity]. Qed.

(** * Further properties of the converter *)

(** ** The table and the templates *)

(** Settles that a template given in full asks for [n] arguments. *)
Ltac needs_arguments n :=
  exists n; split; [lia|];
  intros [|a0 [|a1 [|a2 [|a3 rest]]]];
  (split; intros Hl; cbn [List.length] in Hl);
  solve [ lia | reflexivity | eexists; reflexivity ].

(** X1.  Every template of the table is well formed and asks for between
    one and four arguments: given at least that many, [format] fills it;
    given fewer, it raises [IndexError]. *)
Theorem table_templates_arity (nm t : string) :
  dict_get SNOWFLURRY_OPERATION_MAP nm = Some (Template t) ->
  exists n,
    (1 <= n <= 4)%nat /\
    forall args,
      ((n <= List.length args)%nat -> exists g, format t args = Val g) /\
      ((List.length args < n)%nat -> format t args = Exc IndexError).
Proof.
  intros H. unfold SNOWFLURRY_OPERATION_MAP in H. cbn [dict_get] in H.
  repeat match type of H with
         | (if String.eqb nm ?k then _ else _) = _ =>
             destruct (String.eqb nm k)
         end;
    try discriminate H; injection H as <-;
    first [ needs_arguments 1%nat | needs_arguments 2%nat
          | needs_arguments 3%nat | needs_arguments 4%nat ].
Qed.

Lemma table_templates_arity_witness :
  exists n,
    (1 <= n <= 4)%nat /\
    forall args,
      ((n <= List.length args)%nat ->
       exists g, format "rotation_x({1},{0})" args = Val g) /\
      ((List.length args < n)%nat ->
       format "rotation_x({1},{0})" args = Exc IndexError).
Proof. apply (table_templates_arity "RX"). reflexivity. Defined.

Section MoreTranslation.

Context (B : Backend).

(** X2.  The one-angle rotations and the phase shift are pushed with the
    wire, plus one, before the angle. *)
Theorem rotation_gates_wire_first
    (op : Operation) (nm fn : string) (theta : PyValue) (w : Z) (m : Main B) :
  In (nm, fn) [("RX", "rotation_x"); ("RY", "rotation_y");
               ("RZ", "rotation_z"); ("PhaseShift", "phase_shift")] ->
  name op = nm -> parameters op = [theta] -> wires op = [w] ->
  convert_operation B op m
  = Returned tt
      (pushed (julia_gate B (fn +++ "(" +++ str_int (w + 1) +++ "," +++ str theta
                             +++ ")")) m).
Proof.
  intros Hin Hn Hp Hw. unfold convert_operation, gate_arguments.
  rewrite Hn, Hp, Hw.
  cbn [In] in Hin.
  destruct Hin as [E|[E|[E|[E|[]]]]]; injection E as <- <-; reflexivity.
Qed.

(** X3.  The target wire of a [CRX] and the third angle of a [Rot] never
    reach the circuit: the gate pushed for a [CRX] is controlled by, and
    acts on, the first wire, and the one pushed for a [Rot] has the first
    two angles only. *)
Theorem crx_and_rot_drop_an_argument
    (op : Operation) (a1 a2 a3 : PyValue) (w1 w2 : Z) (m : Main B) :
  (name op = "CRX" -> parameters op = [a1] -> wires op = [w1; w2] ->
   convert_operation B op m
   = Returned tt
       (pushed (julia_gate B ("controlled(rotation_x(" +++ str_int (w1 + 1) +++ ","
                              +++ str a1 +++ ")," +++ str_int (w1 + 1) +++ ")")) m)) /\
  (name op = "Rot" -> parameters op = [a1; a2; a3] -> wires op = [w1] ->
   convert_operation B op m
   = Returned tt
       (pushed (julia_gate B ("rotation(" +++ str_int (w1 + 1) +++ "," +++ str a1
                              +++ "," +++ str a2 +++ ")")) m)).
Proof.
  split; intros Hn Hp Hw; unfold convert_operation, gate_arguments;
    rewrite Hn, Hp, Hw; reflexivity.
Qed.

Lemma returned_loop_substitutes (ops : list Operation) :
  forall (m m' : Main B) (u : unit),
    for_each B ops (convert_operation B) m = Returned u m' ->
    Forall substitutes ops.
Proof.
  induction ops as [|op ops IH]; intros m m' u H; [constructor|].
  cbn [for_each] in H. unfold bind in H.
  destruct (convert_operation B op m) as [[] m1|e m1|] eqn:E;
    try discriminate H.
  constructor; [|exact (IH _ _ _ H)].
  intros t Ht. unfold convert_operation in E. rewrite Ht in E.
  destruct (format t (gate_arguments op)) as [g|e]; [eauto|discriminate E].
Qed.

Lemma one_effect_per_operation (ops : list Operation) :
  Forall substitutes ops ->
  (List.length (flat_map (emitted B) ops)
   + List.length (flat_map diagnostic ops) = List.length ops)%nat.
Proof.
  induction 1 as [|op ops Hop _ IH]; [reflexivity|].
  cbn [flat_map]. rewrite !length_app. cbn [List.length].
  assert (Hone : (List.length (emitted B op) + List.length (diagnostic op) = 1)%nat).
  { unfold emitted, diagnostic, substitutes in *.
    destruct (dict_get SNOWFLURRY_OPERATION_MAP (name op)) as [[t|]|];
      [|reflexivity|reflexivity].
    destruct (Hop t eq_refl) as [g ->]. reflexivity. }
  lia.
Qed.

(** X4.  When [convert_circuit] returns, every operation the loop visited
    is accounted for exactly once: it either gave one instruction to the
    circuit or one message to the trace, in the order of the operations;
    the circuit has one qubit per distinct wire of the tape. *)
Theorem convert_circuit_accounts_for_operations
    (self : PennylaneConverter) (tape : QuantumScript) (m m' : Main B)
    (r : CircuitRef * bool) :
  convert_circuit B self tape m = Returned r m' ->
  r = (the_sf_circuit, false) /\
  qubit_count (sf_circuit m') = List.length (op_wires tape) /\
  bit_count (sf_circuit m') = default_bit_count B (List.length (op_wires tape)) /\
  instructions (sf_circuit m') = flat_map (emitted B) (visited_operations B tape) /\
  trace m' = trace m ++ flat_map diagnostic (visited_operations B tape) /\
  (List.length (instructions (sf_circuit m'))
   + List.length (flat_map diagnostic (visited_operations B tape))
   = List.length (visited_operations B tape))%nat.
Proof.
  unfold convert_circuit. run_py.
  set (m0 := with_sf_circuit _ m).
  destruct (for_each B (visited_operations B tape) (convert_operation B) m0)
    as [[] m1|e m1|] eqn:E; intros H; try discriminate H.
  injection H as <- <-.
  pose proof (returned_loop_substitutes _ _ _ _ E) as Hall.
  destruct (convert_loop B _ Hall m0) as (m2 & E2 & I & Q & Bc & _ & T).
  rewrite E in E2. injection E2 as <-.
  rewrite I, Q, Bc, T. cbn. rewrite (one_effect_per_operation _ Hall). auto 7.
Qed.

(** X5.  An operation that lacks an argument of its template stops the
    translation: [convert_circuit] raises what [format] raised, and
    [Main.sf_circuit] is left with the instructions of the operations
    before it. *)
Theorem convert_circuit_stops_at_short_operation
    (self : PennylaneConverter) (tape : QuantumScript) (m : Main B)
    (pre post : list Operation) (bad : Operation) (t : string) (e : Exn) :
  visited_operations B tape = pre ++ bad :: post ->
  Forall substitutes pre ->
  dict_get SNOWFLURRY_OPERATION_MAP (name bad) = Some (Template t) ->
  format t (gate_arguments bad) = Exc e ->
  exists m',
    convert_circuit B self tape m = Raised e m' /\
    instructions (sf_circuit m') = flat_map (emitted B) pre /\
    trace m' = trace m ++ flat_map diagnostic pre.
Proof.
  intros Hvis Hpre Ht He. unfold convert_circuit. run_py.
  set (m0 := with_sf_circuit _ m).
  destruct (convert_loop B pre Hpre m0) as (m1 & E1 & I & _ & _ & _ & T).
  exists m1. rewrite Hvis, for_each_app, E1. cbn [for_each]. unfold bind.
  unfold convert_operation at 1. rewrite Ht, He. cbn. auto.
Qed.

Lemma loop_reads_circuit_only (ops : list Operation) :
  forall m1 m2 : Main B,
    sf_circuit m1 = sf_circuit m2 ->
    match for_each B ops (convert_operation B) m1,
          for_each B ops (convert_operation B) m2 with
    | Returned _ a, Returned _ b => sf_circuit a = sf_circuit b
    | Raised e1 a, Raised e2 b => e1 = e2 /\ sf_circuit a = sf_circuit b
    | _, _ => False
    end.
Proof.
  induction ops as [|op ops IH]; intros m1 m2 H; [exact H|].
  cbn [for_each]. unfold bind, convert_operation.
  destruct (dict_get SNOWFLURRY_OPERATION_MAP (name op)) as [[t|]|].
  - destruct (format t (gate_arguments op)) as [g|e]; cbn.
    + apply IH. cbn. rewrite H. reflexivity.
    + auto.
  - apply IH. exact H.
  - apply IH. exact H.
Qed.

(** X6.  [convert_circuit] builds the circuit anew: whatever circuit
    [Main] held before, the call ends the same way and leaves the same
    circuit. *)
Theorem convert_circuit_starts_afresh
    (self : PennylaneConverter) (tape : QuantumScript) (m1 m2 : Main B) :
  match convert_circuit B self tape m1, convert_circuit B self tape m2 with
  | Returned r1 a, Returned r2 b => r1 = r2 /\ sf_circuit a = sf_circuit b
  | Raised e1 a, Raised e2 b => e1 = e2 /\ sf_circuit a = sf_circuit b
  | _, _ => False
  end.
Proof.
  unfold convert_circuit. run_py.
  set (c0 := {| qubit_count := _; bit_count := _; instructions := [] |}).
  pose proof (loop_reads_circuit_only (visited_operations B tape)
                (with_sf_circuit c0 m1) (with_sf_circuit c0 m2) eq_refl) as H.
  destruct (for_each B (visited_operations B tape) (convert_operation B)
              (with_sf_circuit c0 m1)) as [[] a|e1 a|];
    destruct (for_each B (visited_operations B tape) (convert_operation B)
                (with_sf_circuit c0 m2)) as [[] b|e2 b|];
    try contradiction; auto.
Qed.

End MoreTranslation.

Lemma rotation_gates_wire_first_witness :
  convert_operation echo_backend (gate_op "RY" [PyFloat "0.25"] [2%Z]) start
  = Returned tt
      (pushed (julia_gate echo_backend
                 ("rotation_y" +++ "(" +++ str_int (2 + 1) +++ ","
                  +++ str (PyFloat "0.25") +++ ")")) start).
Proof.
  apply (rotation_gates_wire_first echo_backend
           (gate_op "RY" [PyFloat "0.25"] [2%Z]) "RY" "rotation_y"
           (PyFloat "0.25") 2 start).
  - right. left. reflexivity.
  - reflexivity.
  - reflexivity.
  - reflexivity.
Defined.

Lemma crx_and_rot_drop_an_argument_witness :
  convert_operation echo_backend (gate_op "CRX" [PyFloat "0.5"] [0%Z; 1%Z]) start
  = Returned tt
      (pushed (julia_gate echo_backend
                 ("controlled(rotation_x(" +++ str_int (0 + 1) +++ ","
                  +++ str (PyFloat "0.5") +++ ")," +++ str_int (0 + 1) +++ ")"))
              start).
Proof.
  apply (proj1 (crx_and_rot_drop_an_argument echo_backend
                  (gate_op "CRX" [PyFloat "0.5"] [0%Z; 1%Z])
                  (PyFloat "0.5") (PyFloat "0") (PyFloat "0") 0 1 start));
    reflexivity.
Defined.

Lemma convert_circuit_accounts_for_operations_witness :
  (the_sf_circuit, false) = (the_sf_circuit, false) /\
  qubit_count (sf_circuit bell_session) = List.length (op_wires (bell_tape [])) /\
  bit_count (sf_circuit bell_session)
  = default_bit_count echo_backend (List.length (op_wires (bell_tape []))) /\
  instructions (sf_circuit bell_session)
  = flat_map (emitted echo_backend) (visited_operations echo_backend (bell_tape [])) /\
  trace bell_session
  = trace start ++ flat_map diagnostic (visited_operations echo_backend (bell_tape [])) /\
  (List.length (instructions (sf_circuit bell_session))
   + List.length (flat_map diagnostic
                    (visited_operations echo_backend (bell_tape [])))
   = List.length (visited_operations echo_backend (bell_tape [])))%nat.
Proof.
  apply (convert_circuit_accounts_for_operations echo_backend
           (converter_of (bell_tape [])) (bell_tape []) start bell_session
           (the_sf_circuit, false)).
  reflexivity.
Defined.

Lemma convert_circuit_stops_at_short_operation_witness :
  exists m',
    convert_circuit echo_backend
      (converter_of (tape_of [pauli_x0; short_cnot; pauli_x0] []))
      (tape_of [pauli_x0; short_cnot; pauli_x0] []) start
    = Raised IndexError m' /\
    instructions (sf_circuit m') = flat_map (emitted echo_backend) [pauli_x0] /\
    trace m' = trace start ++ flat_map diagnostic [pauli_x0].
Proof.
  apply (convert_circuit_stops_at_short_operation echo_backend
           (converter_of (tape_of [pauli_x0; short_cnot; pauli_x0] []))
           (tape_of [pauli_x0; short_cnot; pauli_x0] []) start
           [pauli_x0] [pauli_x0] short_cnot "control_x({0},{1})" IndexError).
  - reflexivity.
  - repeat constructor. intros t Ht. injection Ht as <-. eexists. reflexivity.
  - reflexivity.
  - reflexivity.
Defined.

(** ** Readouts and introspection, in general *)

Section MoreReadouts.

Context (B : Backend).

Lemma for_each_push_all {A : Type} (l : list A) (f : A -> Instruction) :
  forall m : Main B,
  exists m',
    for_each B l (fun x => push B (f x)) m = Returned tt m' /\
    instructions (sf_circuit m') = instructions (sf_circuit m) ++ map f l /\
    qubit_count (sf_circuit m') = qubit_count (sf_circuit m) /\
    bit_count (sf_circuit m') = bit_count (sf_circuit m) /\
    currentClient m' = currentClient m /\
    result_state m' = result_state m /\
    trace m' = trace m.
Proof.
  induction l as [|x l IH]; intros m; cbn [for_each map].
  - exists m. rewrite app_nil_r. auto 7.
  - unfold bind, push at 1.
    destruct (IH (pushed (f x) m)) as (m' & E & I & Q & Bc & C & R & T).
    exists m'. split; [exact E|]. rewrite I, Q, Bc, C, R, T. cbn.
    rewrite <- app_assoc. auto 7.
Qed.

(** X7.  Without an observable [apply_readouts] always returns and puts,
    after what the circuit holds, the readouts of qubits 1 to [wires_nb]
    into the bits of the same numbers, in that order, whether or not the
    circuit already has readouts; nothing else in the session changes. *)
Theorem apply_readouts_all_wires (wires_nb : nat) (m : Main B) :
  exists m',
    apply_readouts B wires_nb None m = Returned tt m' /\
    instructions (sf_circuit m')
    = instructions (sf_circuit m) ++ readouts_for wires_nb /\
    List.length (readouts_for wires_nb) = wires_nb /\
    qubit_count (sf_circuit m') = qubit_count (sf_circuit m) /\
    bit_count (sf_circuit m') = bit_count (sf_circuit m) /\
    currentClient m' = currentClient m /\
    trace m' = trace m.
Proof.
  cbn [apply_readouts].
  destruct (for_each_push_all (seq 0 wires_nb)
              (fun wire => Readout (Z.of_nat wire + 1) (Z.of_nat wire + 1)) m)
    as (m' & E & I & Q & Bc & C & _ & T).
  exists m'. split; [exact E|]. unfold readouts_for.
  rewrite length_map, length_seq. auto 7.
Qed.

(** X8.  With an observable [apply_readouts] reads out its first wire
    only: an observable without a wire raises [IndexError] and changes
    nothing; otherwise, on a circuit that holds only readouts and gates
    whose symbol is on one line (no other kind of instruction, no gate
    drawn over several lines), the call returns with the one readout of
    the first wire, plus one, after the circuit.  Other circuits are not
    covered: [get_circuit_as_dictionary] can raise on them. *)
Theorem apply_readouts_first_wire_only
    (wires_nb : nat) (o : Observable) (m : Main B) :
  (obs_wires o = [] ->
   apply_readouts B wires_nb (Some o) m = Raised IndexError m) /\
  (forall w ws,
     obs_wires o = w :: ws ->
     forallb plain (instructions (sf_circuit m)) = true ->
     exists m',
       apply_readouts B wires_nb (Some o) m = Returned tt m' /\
       instructions (sf_circuit m')
       = instructions (sf_circuit m) ++ [Readout (w + 1) (w + 1)]).
Proof.
  split.
  - intros H. cbn [apply_readouts]. rewrite H. reflexivity.
  - intros w ws H Hplain. cbn [apply_readouts]. rewrite H. run_py.
    exact (apply_single_readout_plain B w m Hplain).
Qed.

(** X9.  On a circuit that holds only readouts and gates whose symbol is
    on one line (no other kind of instruction, no gate drawn over several
    lines) [apply_single_readout] is never a no-op: it returns with one
    more readout of the wire, plus one, at the end of the circuit, also
    when the circuit already has that readout; the circuit it leaves is
    again of that kind.  Other circuits are not covered:
    [get_circuit_as_dictionary] can raise on them. *)
Theorem apply_single_readout_always_pushes (wire : Z) (m : Main B) :
  forallb plain (instructions (sf_circuit m)) = true ->
  exists m',
    apply_single_readout B wire m = Returned tt m' /\
    instructions (sf_circuit m')
    = instructions (sf_circuit m) ++ [Readout (wire + 1) (wire + 1)] /\
    forallb plain (instructions (sf_circuit m')) = true.
Proof.
  intros H. destruct (apply_single_readout_plain B wire m H) as (m' & E & I).
  exists m'. split; [exact E|]. split; [exact I|].
  rewrite I, forallb_app, H. reflexivity.
Qed.

(** X10.  Whenever [get_circuit_as_dictionary] returns, its list has one
    entry per instruction of the circuit, and the circuit and the client
    are as they were. *)
Theorem dictionary_entries_and_frame (l : list OpData) (m m' : Main B) :
  get_circuit_as_dictionary B m = Returned l m' ->
  List.length l = List.length (instructions (sf_circuit m)) /\
  sf_circuit m' = sf_circuit m /\
  currentClient m' = currentClient m.
Proof.
  intros H. split; [exact (dictionary_one_entry_per_instruction B l m m' H)|].
  split.
  - unfold get_circuit_as_dictionary in H. run_py in H.
    exact (dictionary_loop_keeps_circuit B _ _ _ _ _ _ H).
  - destruct (quiet_get_circuit_as_dictionary B m) as (m1 & tr & F & C & _).
    rewrite H in F. injection F as <-. exact C.
Qed.

(** X11.  On a circuit of readouts and of gates whose symbol is on one
    line, [get_circuit_as_dictionary] returns, in the order of the
    circuit, the symbol and the qubits of each gate and ["Readout"] with
    the one qubit of each readout. *)
Theorem dictionary_of_gates_and_readouts (m : Main B) :
  forallb plain (instructions (sf_circuit m)) = true ->
  exists m',
    get_circuit_as_dictionary B m
    = Returned (map describe (instructions (sf_circuit m))) m' /\
    sf_circuit m' = sf_circuit m.
Proof. exact (plain_circuit_dictionary B m). Qed.

Lemma try_classify_keeps_bound (inst : Instruction) (d : OpData) :
  exists d', fst (try_classify inst (Some d)) = Some d'.
Proof.
  unfold try_classify.
  destruct (contains "Gate Object" (str_inst inst)).
  - destruct (re_search_gate (str_inst inst)) as [g|].
    + destruct (get_connected_qubits inst) as [qs|e].
      * destruct (contains "Readout" (str_inst inst)); [|cbn; eauto].
        destruct (get_connected_qubit inst); cbn; eauto.
      * cbn. eauto.
    + cbn. eauto.
  - destruct (contains "Readout" (str_inst inst)); [|cbn; eauto].
    destruct (get_connected_qubit inst); cbn; eauto.
Qed.

Lemma dictionary_loop_bound_returns (insts : list Instruction) :
  forall (d : OpData) (ops : list OpData) (m : Main B),
  exists l m', dictionary_loop B insts (Some d) ops m = Returned l m'.
Proof.
  induction insts as [|inst insts IH]; intros d ops m; cbn [dictionary_loop].
  - do 2 eexists. reflexivity.
  - destruct (try_classify_keeps_bound inst d) as [d' Hd'].
    destruct (try_classify inst (Some d)) as [od raised]. cbn in Hd'. subst od.
    unfold bind. destruct raised; cbn; apply IH.
Qed.

(** X12.  [get_circuit_as_dictionary] can only fail on the first
    instruction.  On an empty circuit, or when the first instruction is a
    readout or a gate with a one-line symbol, it returns whatever the other
    instructions are; when it raises, the exception is
    [UnboundLocalError], the circuit is not empty and its first instruction
    is neither of those. *)
Theorem dictionary_fails_at_head_only (m : Main B) :
  (match instructions (sf_circuit m) with
   | [] => True
   | first :: _ => plain first = true
   end ->
   exists l m', get_circuit_as_dictionary B m = Returned l m') /\
  (forall e m',
     get_circuit_as_dictionary B m = Raised e m' ->
     e = UnboundLocalError /\
     exists first rest,
       instructions (sf_circuit m) = first :: rest /\ plain first = false).
Proof.
  unfold get_circuit_as_dictionary. run_py.
  destruct (instructions (sf_circuit m)) as [|first rest]; split.
  - intros _. do 2 eexists. reflexivity.
  - intros e m' H. discriminate H.
  - intros Hplain. cbn [dictionary_loop].
    pose proof (try_classify_plain first None Hplain) as Hc.
    destruct (try_classify first None) as [od raised]. cbn in Hc. subst od.
    unfold bind. destruct raised; cbn; apply dictionary_loop_bound_returns.
  - intros e m' H. cbn [dictionary_loop] in H.
    destruct (plain first) eqn:Hplain.
    + pose proof (try_classify_plain first None Hplain) as Hc.
      destruct (try_classify first None) as [od raised]. cbn in Hc. subst od.
      unfold bind in H.
      destruct raised; cbn in H;
        match type of H with
        | dictionary_loop B ?i (Some ?d) ?o ?s = _ =>
            destruct (dictionary_loop_bound_returns i d o s) as (l & m1 & E);
            rewrite E in H; discriminate H
        end.
    + destruct (try_classify first None) as [[d|] raised]; unfold bind in H.
      * destruct raised; cbn in H;
          match type of H with
          | dictionary_loop B ?i (Some ?d) ?o ?s = _ =>
              destruct (dictionary_loop_bound_returns i d o s) as (l & m1 & E);
              rewrite E in H; discriminate H
          end.
      * destruct raised; cbn in H; injection H as <- _; eauto.
Qed.

Lemma existsb_describe (insts : list Instruction) :
  (forall symbol qs operator,
     In (Gate symbol qs operator) insts -> symbol <> "Readout") ->
  forallb plain insts = true ->
  existsb (fun op => String.eqb (gate op) "Readout") (map describe insts)
  = existsb is_Readout insts.
Proof.
  induction insts as [|inst insts IH]; intros Hsym Hplain; [reflexivity|].
  cbn [forallb] in Hplain. apply andb_true_iff in Hplain as [Hinst Hrest].
  cbn [map existsb]. rewrite IH; [|intros; eapply Hsym; right; eauto|exact Hrest].
  f_equal. destruct inst as [symbol qs operator|q b|text qs]; cbn.
  - apply String.eqb_neq. apply (Hsym symbol qs operator). left. reflexivity.
  - reflexivity.
  - discriminate Hinst.
Qed.

(** X13.  On a circuit of readouts and of gates whose symbol is on one
    line and is not the word [Readout], [has_readout] returns, and says
    whether the circuit holds a readout. *)
Theorem has_readout_tells_readouts (m : Main B) :
  forallb plain (instructions (sf_circuit m)) = true ->
  (forall symbol qs operator,
     In (Gate symbol qs operator) (instructions (sf_circuit m)) ->
     symbol <> "Readout") ->
  exists m',
    has_readout B m = Returned (existsb is_Readout (instructions (sf_circuit m))) m' /\
    sf_circuit m' = sf_circuit m.
Proof.
  intros Hplain Hsym. unfold has_readout. run_py.
  destruct (plain_circuit_dictionary B m Hplain) as (m' & E & C).
  rewrite E. exists m'. rewrite (existsb_describe _ Hsym Hplain). auto.
Qed.

(** X14.  Whenever [remove_readouts] returns, the circuit it returns is
    the current circuit, readouts included; [Main.sf_circuit] is left as
    it was, and the last thing printed is the list of its instructions. *)
Theorem remove_readouts_returns_current_circuit
    (c : QuantumCircuit) (m m' : Main B) :
  remove_readouts B m = Returned c m' ->
  c = sf_circuit m /\
  sf_circuit m' = sf_circuit m /\
  exists tr,
    trace m' = tr ++ [EvPrint (repr_instructions (instructions (sf_circuit m)))].
Proof.
  unfold remove_readouts, get_circuit_as_dictionary. run_py.
  destruct (dictionary_loop B (instructions (sf_circuit m)) None [] m)
    as [l m1|e m1|] eqn:E; intros H; try discriminate H.
  apply dictionary_loop_keeps_circuit in E.
  injection H as <- <-. cbn. rewrite E.
  split; [destruct (sf_circuit m); reflexivity|]. split; [reflexivity|].
  exists (trace m1). reflexivity.
Qed.

End MoreReadouts.

Lemma apply_readouts_first_wire_only_witness :
  exists m',
    apply_readouts echo_backend 2 (Some pauli_z_obs) bell_session = Returned tt m' /\
    instructions (sf_circuit m')
    = instructions (sf_circuit bell_session) ++ [Readout (1 + 1) (1 + 1)].
Proof.
  apply (proj2 (apply_readouts_first_wire_only echo_backend 2 pauli_z_obs
                  bell_session) 1%Z [0%Z]); reflexivity.
Defined.

Lemma apply_single_readout_always_pushes_witness :
  exists m',
    apply_single_readout echo_backend 0 measured_session = Returned tt m' /\
    instructions (sf_circuit m')
    = instructions (sf_circuit measured_session) ++ [Readout (0 + 1) (0 + 1)] /\
    forallb plain (instructions (sf_circuit m')) = true.
Proof.
  apply (apply_single_readout_always_pushes echo_backend 0 measured_session).
  reflexivity.
Defined.

Lemma dictionary_entries_and_frame_witness :
  List.length [describe hadamard_gate; describe (Readout 1 1)]
  = List.length (instructions (sf_circuit measured_session)) /\
  sf_circuit measured_session = sf_circuit measured_session /\
  currentClient measured_session = currentClient measured_session.
Proof.
  apply (dictionary_entries_and_frame echo_backend
           [describe hadamard_gate; describe (Readout 1 1)]
           measured_session measured_session).
  reflexivity.
Defined.

Lemma dictionary_of_gates_and_readouts_witness :
  exists m',
    get_circuit_as_dictionary echo_backend measured_session
    = Returned (map describe (instructions (sf_circuit measured_session))) m' /\
    sf_circuit m' = sf_circuit measured_session.
Proof.
  apply (dictionary_of_gates_and_readouts echo_backend measured_session).
  reflexivity.
Defined.

Lemma dictionary_fails_at_head_only_witness :
  exists l m', get_circuit_as_dictionary echo_backend measured_session = Returned l m'.
Proof.
  apply (proj1 (dictionary_fails_at_head_only echo_backend measured_session)).
  reflexivity.
Defined.

Lemma has_readout_tells_readouts_witness :
  exists m',
    has_readout echo_backend measured_session
    = Returned (existsb is_Readout (instructions (sf_circuit measured_session))) m' /\
    sf_circuit m' = sf_circuit measured_session.
Proof.
  apply (has_readout_tells_readouts echo_backend measured_session).
  - reflexivity.
  - intros symbol qs operator [E|[E|[]]]; [|discriminate E].
    injection E as <- _ _. discriminate.
Defined.

Lemma remove_readouts_returns_current_circuit_witness :
  measured_circuit = sf_circuit measured_session /\
  sf_circuit (record (EvPrint (repr_instructions (instructions measured_circuit)))
                measured_session)
  = sf_circuit measured_session /\
  exists tr,
    trace (record (EvPrint (repr_instructions (instructions measured_circuit)))
             measured_session)
    = tr ++ [EvPrint (repr_instructions (instructions (sf_circuit measured_session)))].
Proof.
  apply (remove_readouts_returns_current_circuit echo_backend measured_circuit
           measured_session
           (record (EvPrint (repr_instructions (instructions measured_circuit)))
              measured_session)).
  reflexivity.
Defined.

(** ** What the measurements do to the circuit *)

Section CircuitGrowth.

Context (B : Backend).

Lemma readouts_added_refl (m : Main B) : readouts_added m m.
Proof. exists []. rewrite app_nil_r. auto. Qed.

Lemma readouts_added_same (m m' : Main B) :
  sf_circuit m' = sf_circuit m -> readouts_added m m'.
Proof. intros E. exists []. rewrite E, app_nil_r. auto. Qed.

Lemma readouts_added_trans (m1 m2 m3 : Main B) :
  readouts_added m1 m2 -> readouts_added m2 m3 -> readouts_added m1 m3.
Proof.
  intros (r1 & I1 & F1 & Q1 & B1) (r2 & I2 & F2 & Q2 & B2).
  exists (r1 ++ r2). rewrite I2, I1, Q2, Q1, B2, B1, forallb_app, F1, F2, app_assoc.
  auto.
Qed.

Lemma grows_ret {A : Type} (a : A) : adds_readouts_only (ret B a).
Proof. intros m m' H. injection H as <-. apply readouts_added_refl. Qed.

Lemma grows_raise {A : Type} (e : Exn) : adds_readouts_only (@raise B A e).
Proof. intros m m' H. injection H as <-. apply readouts_added_refl. Qed.

Lemma grows_lift {A : Type} (x : Except A) : adds_readouts_only (lift B x).
Proof. destruct x; [apply grows_ret|apply grows_raise]. Qed.

Lemma grows_diverge {A : Type} : adds_readouts_only (@diverge B A).
Proof. intros m m' H. discriminate H. Qed.

Lemma grows_emit (e : Event) : adds_readouts_only (emit B e).
Proof. intros m m' H. injection H as <-. apply readouts_added_same. reflexivity. Qed.

Lemma grows_get_sf_circuit : adds_readouts_only (get_sf_circuit B).
Proof. intros m m' H. injection H as <-. apply readouts_added_refl. Qed.

Lemma grows_get_currentClient : adds_readouts_only (get_currentClient B).
Proof. intros m m' H. injection H as <-. apply readouts_added_refl. Qed.

Lemma grows_set_result_state (k : Ket B) : adds_readouts_only (set_result_state B k).
Proof. intros m m' H. injection H as <-. apply readouts_added_same. reflexivity. Qed.

Lemma grows_push_readout (q b : Z) : adds_readouts_only (push B (Readout q b)).
Proof.
  intros m m' H. injection H as <-. exists [Readout q b]. cbn. auto.
Qed.

Lemma grows_bind {A C : Type} (c : Py B A) (k : A -> Py B C) :
  adds_readouts_only c -> (forall a, adds_readouts_only (k a)) ->
  adds_readouts_only (bind c k).
Proof.
  intros Hc Hk m m' H. unfold bind in H.
  destruct (c m) as [a m1|e m1|] eqn:E; [| |discriminate H].
  - apply (readouts_added_trans m m1 m').
    + apply Hc. rewrite E. reflexivity.
    + apply (Hk a). exact H.
  - injection H as <-. apply Hc. rewrite E. reflexivity.
Qed.

Lemma grows_for_each {A : Type} (l : list A) (body : A -> Py B unit) :
  (forall x, adds_readouts_only (body x)) -> adds_readouts_only (for_each B l body).
Proof.
  intros Hb. induction l as [|x l IH]; cbn [for_each].
  - apply grows_ret.
  - apply grows_bind; [apply Hb|]. intros _. exact IH.
Qed.

Lemma grows_dictionary_loop (insts : list Instruction) :
  forall op_data ops, adds_readouts_only (dictionary_loop B insts op_data ops).
Proof.
  induction insts as [|inst insts IH]; intros op_data ops; cbn [dictionary_loop].
  - apply grows_ret.
  - destruct (try_classify inst op_data) as [od raised].
    apply grows_bind.
    + destruct raised; [apply grows_emit|apply grows_ret].
    + intros _. destruct od; [apply IH|apply grows_raise].
Qed.

Lemma grows_get_circuit_as_dictionary :
  adds_readouts_only (get_circuit_as_dictionary B).
Proof.
  apply grows_bind; [apply grows_get_sf_circuit|]. intros c.
  apply grows_dictionary_loop.
Qed.

Lemma grows_has_readout : adds_readouts_only (has_readout B).
Proof.
  apply grows_bind; [apply grows_get_circuit_as_dictionary|]. intros ops.
  apply grows_ret.
Qed.

Lemma grows_remove_readouts : adds_readouts_only (remove_readouts B).
Proof.
  apply grows_bind; [apply grows_get_circuit_as_dictionary|]. intros ops.
  apply grows_bind; [apply grows_get_sf_circuit|]. intros c.
  apply grows_bind; [apply grows_emit|]. intros _. apply grows_ret.
Qed.

Lemma grows_apply_single_readout (wire : Z) :
  adds_readouts_only (apply_single_readout B wire).
Proof.
  apply grows_bind; [apply grows_get_circuit_as_dictionary|]. intros ops.
  destruct (readout_found ops wire); [apply grows_ret|apply grows_push_readout].
Qed.

Lemma grows_apply_readouts (n : nat) (o : option Observable) :
  adds_readouts_only (apply_readouts B n o).
Proof.
  destruct o as [o|]; cbn [apply_readouts].
  - apply grows_bind; [apply grows_lift|]. intros w.
    apply grows_apply_single_readout.
  - apply grows_for_each. intros w. apply grows_push_readout.
Qed.

Lemma grows_run_shots (shots : nat) : adds_readouts_only (run_shots B shots).
Proof.
  apply grows_bind; [apply grows_get_sf_circuit|]. intros c.
  apply grows_bind; [apply grows_emit|]. intros _. apply grows_ret.
Qed.

Lemma grows_run_simulate (sf : CircuitRef) : adds_readouts_only (run_simulate B sf).
Proof.
  apply grows_bind; [destruct sf; [apply grows_get_sf_circuit|apply grows_ret]|].
  intros c. apply grows_bind; [apply grows_emit|]. intros _.
  apply grows_bind; [apply grows_set_result_state|]. intros _. apply grows_ret.
Qed.

Lemma grows_poll (circuitID : string) (fuel : nat) :
  forall k status, adds_readouts_only (poll B fuel circuitID k status).
Proof.
  induction fuel as [|fuel IH]; intros k status; cbn [poll];
    destruct (String.eqb status "succeeded"); try apply grows_ret.
  - apply grows_diverge.
  - apply grows_bind; [apply grows_emit|]. intros _.
    apply grows_bind; [apply grows_emit|]. intros _.
    apply grows_bind; [apply grows_emit|]. intros _.
    apply grows_bind; [apply grows_emit|]. intros _.
    destruct (String.eqb (get_status B circuitID k) "failed");
      [apply grows_ret|apply IH].
Qed.

Lemma grows_run_on_hardware fuel (cl : Client B) shots :
  adds_readouts_only (run_on_hardware B fuel cl shots).
Proof.
  apply grows_bind; [apply grows_get_sf_circuit|]. intros c.
  apply grows_bind; [apply grows_emit|]. intros _.
  apply grows_bind; [apply grows_emit|]. intros _.
  apply grows_bind; [apply grows_poll|]. intros status.
  destruct (String.eqb status "succeeded"); [|apply grows_ret].
  apply grows_bind; [apply grows_emit|]. intros _. apply grows_ret.
Qed.

Lemma grows_block (test : bool) (body : Py B (option (Result B)))
    (rest : Py B (Result B)) :
  adds_readouts_only body -> adds_readouts_only rest ->
  adds_readouts_only (block B test body rest).
Proof.
  intros Hb Hr. unfold block. destruct test; [|exact Hr].
  apply grows_bind; [exact Hb|]. intros [v|]; [apply grows_ret|exact Hr].
Qed.

Lemma grows_measure fuel self mp sf shots :
  adds_readouts_only (measure B fuel self mp sf shots).
Proof.
  unfold measure.
  apply grows_block.
  { apply grows_bind; [apply grows_get_currentClient|]. intros [cl|].
    - apply grows_run_on_hardware.
    - apply grows_bind; [apply grows_apply_readouts|]. intros _.
      apply grows_bind; [apply grows_run_shots|]. intros l. apply grows_ret. }
  apply grows_block.
  { apply grows_bind; [apply grows_get_currentClient|]. intros [cl|].
    - apply grows_run_on_hardware.
    - apply grows_bind; [apply grows_apply_readouts|]. intros _.
      apply grows_bind; [apply grows_run_shots|]. intros l. apply grows_ret. }
  apply grows_block.
  { apply grows_bind; [apply grows_get_sf_circuit|]. intros c.
    apply grows_bind; [apply grows_emit|]. intros _.
    destruct (List.length (mp_wires mp) =? 0)%nat; apply grows_ret. }
  apply grows_block.
  { apply grows_bind; [apply grows_run_simulate|]. intros k.
    destruct (obs mp) as [o|]; [|apply grows_ret].
    destruct (has_matrix o); [|apply grows_ret].
    apply grows_bind; [apply grows_emit|]. intros _.
    apply grows_bind; [apply grows_emit|]. intros _. apply grows_ret. }
  apply grows_block; [|apply grows_ret].
  apply grows_bind; [apply grows_has_readout|]. intros r.
  apply grows_bind.
  - destruct r; [|apply grows_ret].
    apply grows_bind; [apply grows_remove_readouts|]. intros c. apply grows_ret.
  - intros sf'. apply grows_bind; [apply grows_run_simulate|]. intros k.
    apply grows_ret.
Qed.

Lemma grows_measure_each fuel self mps sf shots :
  adds_readouts_only (measure_each B fuel self mps sf shots).
Proof.
  induction mps as [|mp mps IH]; cbn [measure_each].
  - apply grows_ret.
  - apply grows_bind; [apply grows_measure|]. intros r.
    apply grows_bind; [exact IH|]. intros rs. apply grows_ret.
Qed.

Lemma gates_kept (m m' : Main B) :
  readouts_added m m' ->
  filter (fun i => negb (is_Readout i)) (instructions (sf_circuit m'))
  = filter (fun i => negb (is_Readout i)) (instructions (sf_circuit m)).
Proof.
  intros (rs & I & F & _). rewrite I, filter_app.
  assert (Hrs : filter (fun i => negb (is_Readout i)) rs = []).
  { clear I. induction rs as [|r rs IH]; [reflexivity|].
    cbn [forallb] in F. apply andb_true_iff in F as [Hr Hrest].
    cbn [filter]. rewrite Hr. cbn. exact (IH Hrest). }
  rewrite Hrs, app_nil_r. reflexivity.
Qed.

(** X15.  Whatever the measurement, the path and the way it ends (a
    result or an exception), [measure] and [measure_final_state] only ever
    add readouts at the end of [Main.sf_circuit]: the instructions that
    were there stay, in their order, no gate is added, and the qubit and
    bit counts do not change. *)
Theorem measuring_only_adds_readouts
    (fuel : nat) (self : PennylaneConverter) (mp : MeasurementProcess)
    (tape : QuantumScript) (sf : CircuitRef) (shots : nat) (batched : bool)
    (m : Main B) :
  (forall m',
     final_session (measure B fuel self mp sf shots m) = Some m' ->
     readouts_added m m' /\
     filter (fun i => negb (is_Readout i)) (instructions (sf_circuit m'))
     = filter (fun i => negb (is_Readout i)) (instructions (sf_circuit m))) /\
  (forall m',
     final_session (measure_final_state B fuel self tape sf batched m) = Some m' ->
     readouts_added m m' /\
     filter (fun i => negb (is_Readout i)) (instructions (sf_circuit m'))
     = filter (fun i => negb (is_Readout i)) (instructions (sf_circuit m))).
Proof.
  assert (Hfinal : adds_readouts_only
                     (measure_final_state B fuel self tape sf batched)).
  { unfold measure_final_state. apply grows_bind.
    - destruct (measurements (map_to_standard_wires B tape)) as [|mp0 [|mp1 mps]].
      + apply grows_bind; [apply grows_measure_each|]. intros rs. apply grows_ret.
      + apply grows_measure.
      + apply grows_bind; [apply grows_measure_each|]. intros rs. apply grows_ret.
    - intros r. apply grows_bind; [apply grows_get_sf_circuit|]. intros c.
      apply grows_bind; [apply grows_emit|]. intros _. apply grows_ret. }
  split; intros m' H.
  - pose proof (grows_measure fuel self mp sf shots m m' H) as Hr.
    split; [exact Hr|apply gates_kept, Hr].
  - pose proof (Hfinal m m' H) as Hr.
    split; [exact Hr|apply gates_kept, Hr].
Qed.

End CircuitGrowth.

(** ** The branches of the dispatch, one by one *)

Section MoreDispatch.

Context (B : Backend).

Lemma circuit_ext (a b : QuantumCircuit) :
  qubit_count a = qubit_count b -> bit_count a = bit_count b ->
  instructions a = instructions b -> a = b.
Proof. destruct a, b; cbn; intros -> -> ->; reflexivity. Qed.

Lemma has_readout_plain (m : Main B) :
  forallb plain (instructions (sf_circuit m)) = true ->
  exists b m1,
    has_readout B m = Returned b m1 /\ sf_circuit m1 = sf_circuit m.
Proof.
  intros H. unfold has_readout. run_py.
  destruct (plain_circuit_dictionary B m H) as (m1 & E & C).
  rewrite E. eauto.
Qed.

Lemma remove_readouts_plain (m : Main B) :
  forallb plain (instructions (sf_circuit m)) = true ->
  exists m1,
    remove_readouts B m = Returned (sf_circuit m) m1 /\
    sf_circuit m1 = sf_circuit m.
Proof.
  intros H. unfold remove_readouts. run_py.
  destruct (plain_circuit_dictionary B m H) as (m1 & E & C).
  rewrite E.
  exists (record (EvPrint (repr_instructions (instructions (sf_circuit m1)))) m1).
  split; [|exact C].
  assert (Heta : {| qubit_count := qubit_count (sf_circuit m1);
                    bit_count := bit_count (sf_circuit m1);
                    instructions := instructions (sf_circuit m1) |}
                 = sf_circuit m1) by (apply circuit_ext; reflexivity).
  rewrite Heta, C. reflexivity.
Qed.

Lemma state_branch_plain (m : Main B) :
  forallb plain (instructions (sf_circuit m)) = true ->
  exists m',
    state_branch B the_sf_circuit m
    = Returned (Some (ResState B (simulate B (sf_circuit m)))) m' /\
    sf_circuit m' = sf_circuit m /\
    result_state m' = Some (simulate B (sf_circuit m)).
Proof.
  intros H. unfold state_branch.
  destruct (has_readout_plain m H) as (b & m1 & E1 & C1).
  unfold bind at 1. rewrite E1.
  assert (H1 : forallb plain (instructions (sf_circuit m1)) = true)
    by (rewrite C1; exact H).
  destruct b.
  - destruct (remove_readouts_plain m1 H1) as (m2 & E2 & C2).
    unfold run_simulate. run_py. rewrite E2. rewrite C1.
    eexists. split; [reflexivity|]. cbn. rewrite C2, C1. auto.
  - unfold run_simulate. run_py. rewrite C1.
    eexists. split; [reflexivity|]. cbn. auto.
Qed.

(** X16.  A state measurement (a [StateMeasurement] that is none of the
    four named classes), handed [Main.sf_circuit] when that circuit holds
    only readouts and gates whose symbol is on one line (no other kind of
    instruction, no gate drawn over several lines), returns the state the
    backend simulates for the current circuit as it is, readouts
    included: the circuit handed to [Main.simulate] has the instructions
    of [Main.sf_circuit], which is itself left unchanged.  Other circuits
    are not covered: [has_readout] can raise on them. *)
Theorem state_measurement_simulates_current_circuit
    (fuel : nat) (self : PennylaneConverter) (mp : MeasurementProcess)
    (shots : nat) (m : Main B) :
  is_plain_state mp ->
  forallb plain (instructions (sf_circuit m)) = true ->
  exists m',
    measure B fuel self mp the_sf_circuit shots m
    = Returned (ResState B (simulate B (sf_circuit m))) m' /\
    sf_circuit m' = sf_circuit m /\
    result_state m' = Some (simulate B (sf_circuit m)).
Proof.
  intros [Hk Hs] H. unfold measure. rewrite Hk, Hs. cbn [MPClass_eqb].
  unfold block. destruct (state_branch_plain m H) as (m' & E & C & R).
  unfold bind. rewrite E. exists m'. auto.
Qed.

(** X17.  An expectation measurement whose observable has a matrix
    returns the backend's expected value of the observable in the state
    simulated for the circuit it was given; it needs no readout and adds
    none, cannot raise, and its events are the simulation, the printed
    type of the observable and the call of [expected_value]. *)
Theorem expectation_with_matrix
    (fuel : nat) (self : PennylaneConverter) (mp : MeasurementProcess)
    (sf : CircuitRef) (shots : nat) (o : Observable) (m : Main B) :
  mp_class mp = ExpectationMP ->
  obs mp = Some o ->
  has_matrix o = true ->
  exists m',
    measure B fuel self mp sf shots m
    = Returned (ResExpectation B (expected_value B o (simulate B (referred sf m))))
               m' /\
    sf_circuit m' = sf_circuit m /\
    result_state m' = Some (simulate B (referred sf m)) /\
    trace m' = trace m ++ [EvCall c_simulate; EvPrint (type_repr o);
                           EvCall c_expected_value].
Proof.
  intros Hk Ho Hm. unfold measure. rewrite Hk. cbn [MPClass_eqb].
  unfold block, expectation_branch, run_simulate. rewrite Ho, Hm.
  destruct sf; run_py; (eexists; split; [reflexivity|]); cbn;
    rewrite <- !app_assoc; auto.
Qed.

(** X18.  An expectation measurement without an observable, or whose
    observable has no matrix, handed [Main.sf_circuit], does not return
    an expected value.  The circuit is simulated all the same; then, if
    the measurement is no [StateMeasurement], the class
    [NotImplementedError] is returned, on any circuit; and if it is one,
    the state branch runs and, when the circuit holds only readouts and
    gates whose symbol is on one line (no other kind of instruction, no
    gate drawn over several lines), the state simulated for the current
    circuit is returned.  For a [StateMeasurement] on other circuits
    nothing is stated: [has_readout] can raise on them. *)
Theorem expectation_without_matrix
    (fuel : nat) (self : PennylaneConverter) (mp : MeasurementProcess)
    (shots : nat) (m : Main B) :
  mp_class mp = ExpectationMP ->
  (obs mp = None \/ exists o, obs mp = Some o /\ has_matrix o = false) ->
  (is_StateMeasurement mp = false ->
   exists m',
     measure B fuel self mp the_sf_circuit shots m
     = Returned ResNotImplementedError m' /\
     sf_circuit m' = sf_circuit m /\
     trace m' = trace m ++ [EvCall c_simulate]) /\
  (is_StateMeasurement mp = true ->
   forallb plain (instructions (sf_circuit m)) = true ->
   exists m',
     measure B fuel self mp the_sf_circuit shots m
     = Returned (ResState B (simulate B (sf_circuit m))) m' /\
     sf_circuit m' = sf_circuit m).
Proof.
  intros Hk Hobs.
  set (m1 := with_result_state (simulate B (sf_circuit m))
               (record (EvCall c_simulate) m)).
  assert (Hbranch : expectation_branch B mp the_sf_circuit m = Returned None m1).
  { unfold expectation_branch, run_simulate. run_py.
    destruct Hobs as [->|(o & -> & ->)]; reflexivity. }
  split.
  - intros Hs. exists m1. unfold measure. rewrite Hk, Hs. cbn [MPClass_eqb].
    unfold block, bind. rewrite Hbranch. auto.
  - intros Hs Hplain.
    destruct (state_branch_plain m1 Hplain) as (m' & E & C & _).
    exists m'. unfold measure. rewrite Hk, Hs. cbn [MPClass_eqb].
    unfold block, bind. rewrite Hbranch, E. auto.
Qed.

Lemma shots_local (fuel : nat) (self : PennylaneConverter)
    (mp : MeasurementProcess) (sf : CircuitRef) (shots : nat) (m : Main B) :
  runs_shots mp -> obs mp = None -> currentClient m = None ->
  exists m',
    measure B fuel self mp sf shots m
    = Returned
        (match mp_class mp with
         | CountsMP => ResCounts (Counter (simulate_shots B (sf_circuit m') shots))
         | _ => ResSample B (astype_int B (simulate_shots B (sf_circuit m') shots))
         end) m' /\
    instructions (sf_circuit m')
    = instructions (sf_circuit m)
      ++ readouts_for (List.length (op_wires (circuit self))) /\
    qubit_count (sf_circuit m') = qubit_count (sf_circuit m) /\
    bit_count (sf_circuit m') = bit_count (sf_circuit m) /\
    currentClient m' = currentClient m /\
    trace m' = trace m ++ [EvCall c_simulate_shots].
Proof.
  intros Hk Ho Hc.
  destruct (for_each_push_all B (seq 0 (List.length (op_wires (circuit self))))
              (fun wire => Readout (Z.of_nat wire + 1) (Z.of_nat wire + 1)) m)
    as (m1 & E & I & Q & Bc & C & _ & T).
  exists (record (EvCall c_simulate_shots) m1).
  split; [|cbn; rewrite I, Q, Bc, C, T; auto 6].
  unfold measure.
  destruct Hk as [Hk|Hk]; rewrite Hk; cbn [MPClass_eqb]; unfold block;
    unfold counts_branch, sample_branch, run_shots; run_py;
    rewrite Hc, Ho; cbn [apply_readouts]; rewrite E; reflexivity.
Qed.

(** X19.  A counts or a sample measurement without an observable, on the
    simulator: the circuit handed to [simulate_shots] is the current
    circuit followed by one readout per distinct wire of the tape, qubit
    [i] into bit [i]; the result is built from the outcomes for that
    circuit, and [Main.sf_circuit] keeps the readouts afterwards. *)
Theorem shots_run_with_all_readouts
    (fuel : nat) (self : PennylaneConverter) (mp : MeasurementProcess)
    (sf : CircuitRef) (shots : nat) (m : Main B) :
  runs_shots mp -> obs mp = None -> currentClient m = None ->
  exists measured m',
    measure B fuel self mp sf shots m
    = Returned
        (match mp_class mp with
         | CountsMP => ResCounts (Counter (simulate_shots B measured shots))
         | _ => ResSample B (astype_int B (simulate_shots B measured shots))
         end) m' /\
    sf_circuit m' = measured /\
    instructions measured
    = instructions (sf_circuit m)
      ++ readouts_for (List.length (op_wires (circuit self))) /\
    qubit_count measured = qubit_count (sf_circuit m) /\
    bit_count measured = bit_count (sf_circuit m) /\
    trace m' = trace m ++ [EvCall c_simulate_shots].
Proof.
  intros Hk Ho Hc.
  destruct (shots_local fuel self mp sf shots m Hk Ho Hc)
    as (m' & E & I & Q & Bc & _ & T).
  exists (sf_circuit m'), m'. auto 7.
Qed.

(** X20.  Two measurements that run shots, one after the other on the
    simulator, each add the readouts of all the wires: after the second
    the circuit holds every readout twice, and the second run of shots
    was made on that circuit. *)
Theorem shots_twice_double_the_readouts
    (fuel : nat) (self : PennylaneConverter) (mp1 mp2 : MeasurementProcess)
    (sf : CircuitRef) (shots : nat) (m : Main B) :
  runs_shots mp1 -> runs_shots mp2 ->
  obs mp1 = None -> obs mp2 = None ->
  currentClient m = None ->
  exists r1 r2 m',
    measure_each B fuel self [mp1; mp2] sf shots m = Returned [r1; r2] m' /\
    r2 = match mp_class mp2 with
         | CountsMP => ResCounts (Counter (simulate_shots B (sf_circuit m') shots))
         | _ => ResSample B (astype_int B (simulate_shots B (sf_circuit m') shots))
         end /\
    instructions (sf_circuit m')
    = instructions (sf_circuit m)
      ++ readouts_for (List.length (op_wires (circuit self)))
      ++ readouts_for (List.length (op_wires (circuit self))).
Proof.
  intros Hk1 Hk2 Ho1 Ho2 Hc.
  destruct (shots_local fuel self mp1 sf shots m Hk1 Ho1 Hc)
    as (m1 & E1 & I1 & _ & _ & C1 & _).
  assert (Hc1 : currentClient m1 = None) by (rewrite C1; exact Hc).
  destruct (shots_local fuel self mp2 sf shots m1 Hk2 Ho2 Hc1)
    as (m2 & E2 & I2 & _ & _ & _ & _).
  do 2 eexists. exists m2. cbn [measure_each]. unfold bind.
  rewrite E1, E2. cbn. split; [reflexivity|]. split; [reflexivity|].
  rewrite I2, I1, <- app_assoc. reflexivity.
Qed.

End MoreDispatch.

(** ** The polling loop *)

Section Polling.

Context (B : Backend).

Lemma seconds_slept_app (a b : list Event) :
  seconds_slept (a ++ b) = (seconds_slept a + seconds_slept b)%nat.
Proof. unfold seconds_slept. rewrite filter_app, length_app. reflexivity. Qed.

Lemma polled_zero (m : Main B) : polled 0 m m.
Proof.
  split; [reflexivity|]. split; [reflexivity|].
  exists []. rewrite app_nil_r. cbn. auto.
Qed.

Lemma polled_round (circuitID status' : string) (d : nat) (m m' : Main B) :
  polled d
    (record (EvPrint ("current status : " +++ status'))
       (record (EvCall c_get_status)
          (record EvSleep
             (record (EvPrint ("checking for status for circuit id " +++ circuitID))
                m)))) m' ->
  polled (S d) m m'.
Proof.
  intros (C & Cl & tr & T & S1 & R1 & R2).
  split; [exact C|]. split; [exact Cl|].
  exists ([EvPrint ("checking for status for circuit id " +++ circuitID);
           EvSleep; EvCall c_get_status;
           EvPrint ("current status : " +++ status')] ++ tr).
  split; [rewrite T; cbn; rewrite <- !app_assoc; reflexivity|].
  split; [rewrite seconds_slept_app, S1; reflexivity|].
  split; intros Hin; apply in_app_iff in Hin as [Hin|Hin]; auto;
    cbn in Hin; repeat (destruct Hin as [Hin|Hin]; try discriminate Hin); auto.
Qed.

Lemma poll_succeeds (circuitID : string) (n : nat) :
  get_status B circuitID n = "succeeded" ->
  forall (d j fuel : nat) (m : Main B),
    n = (j + d)%nat -> (d <= fuel)%nat ->
    (forall i, (j <= i < n)%nat -> get_status B circuitID i <> "succeeded") ->
    (forall i, (j < i < n)%nat -> get_status B circuitID i <> "failed") ->
    exists m',
      poll B fuel circuitID (S j) (get_status B circuitID j) m
      = Returned "succeeded" m' /\
      polled d m m'.
Proof.
  intros Hn. induction d as [|d IH]; intros j fuel m Hj Hfuel Hs Hf.
  - replace j with n by lia. rewrite Hn.
    exists m. split; [destruct fuel; reflexivity|apply polled_zero].
  - destruct fuel as [|fuel]; [lia|]. cbn [poll].
    destruct (String.eqb_spec (get_status B circuitID j) "succeeded") as [E|_].
    { exfalso. apply (Hs j); [lia|exact E]. }
    run_py.
    destruct (String.eqb_spec (get_status B circuitID (S j)) "failed") as [E|_].
    { exfalso. destruct (Nat.eq_dec (S j) n) as [<-|Hne].
      - rewrite Hn in E. discriminate E.
      - apply (Hf (S j)); [lia|exact E]. }
    match goal with
    | |- exists m', poll B fuel circuitID (S (S j)) _ ?m1 = _ /\ _ =>
        destruct (IH (S j) fuel m1) as (m' & E & P);
          [lia|lia|intros i Hi; apply Hs; lia|intros i Hi; apply Hf; lia|]
    end.
    exists m'. split; [exact E|]. eapply polled_round. exact P.
Qed.

Lemma poll_fails (circuitID : string) (n : nat) :
  get_status B circuitID n = "failed" ->
  forall (d j fuel : nat) (m : Main B),
    n = (j + S d)%nat -> (S d <= fuel)%nat ->
    (forall i, (j <= i < n)%nat -> get_status B circuitID i <> "succeeded") ->
    (forall i, (j < i < n)%nat -> get_status B circuitID i <> "failed") ->
    exists m',
      poll B fuel circuitID (S j) (get_status B circuitID j) m
      = Returned "failed" m' /\
      polled (S d) m m'.
Proof.
  intros Hn. induction d as [|d IH]; intros j fuel m Hj Hfuel Hs Hf;
    (destruct fuel as [|fuel]; [lia|]); cbn [poll];
    (destruct (String.eqb_spec (get_status B circuitID j) "succeeded") as [E|_];
     [exfalso; apply (Hs j); [lia|exact E]|]); run_py.
  - replace (S j) with n by lia. rewrite Hn. cbn.
    eexists. split; [reflexivity|]. eapply polled_round. apply polled_zero.
  - destruct (String.eqb_spec (get_status B circuitID (S j)) "failed") as [E|_].
    { exfalso. apply (Hf (S j)); [lia|exact E]. }
    match goal with
    | |- exists m', poll B fuel circuitID (S (S j)) _ ?m1 = _ /\ _ =>
        destruct (IH (S j) fuel m1) as (m' & E & P);
          [lia|lia|intros i Hi; apply Hs; lia|intros i Hi; apply Hf; lia|]
    end.
    exists m'. split; [exact E|]. eapply polled_round. exact P.
Qed.

Lemma poll_never_ends (circuitID : string) :
  (forall i, get_status B circuitID i <> "succeeded") ->
  (forall i, (0 < i)%nat -> get_status B circuitID i <> "failed") ->
  forall (fuel j : nat) (m : Main B),
    poll B fuel circuitID (S j) (get_status B circuitID j) m = Diverged.
Proof.
  intros Hs Hf. induction fuel as [|fuel IH]; intros j m; cbn [poll];
    (destruct (String.eqb_spec (get_status B circuitID j) "succeeded") as [E|_];
     [exfalso; exact (Hs j E)|]); [reflexivity|].
  run_py.
  destruct (String.eqb_spec (get_status B circuitID (S j)) "failed") as [E|_].
  { exfalso. apply (Hf (S j)); [lia|exact E]. }
  apply IH.
Qed.

(** With a client, a measurement that runs shots is the remote path
    followed, when that path returns nothing, by the state block. *)
Lemma measure_on_hardware (fuel : nat) (self : PennylaneConverter)
    (mp : MeasurementProcess) (sf : CircuitRef) (shots : nat) (cl : Client B)
    (m : Main B) :
  runs_shots mp -> currentClient m = Some cl ->
  measure B fuel self mp sf shots m
  = bind (run_on_hardware B fuel cl shots)
      (fun r => match r with
                | Some v => ret B v
                | None => block B (is_StateMeasurement mp) (state_branch B sf)
                            (ret B ResNotImplementedError)
                end) m.
Proof.
  intros [Hk|Hk] Hc; unfold measure; rewrite Hk; cbn [MPClass_eqb].
  - unfold block at 1. unfold counts_branch at 1.
    unfold bind at 1 2. unfold get_currentClient at 1. rewrite Hc.
    unfold bind. destruct (run_on_hardware B fuel cl shots m) as [[v|] m1|e m1|];
      reflexivity.
  - unfold block at 1 2. unfold sample_branch at 1.
    unfold bind at 1 2. unfold get_currentClient at 1. rewrite Hc.
    unfold bind. destruct (run_on_hardware B fuel cl shots m) as [[v|] m1|e m1|];
      reflexivity.
Qed.

(** X21.  With a client, a measurement that runs shots submits the
    current circuit as it is, with no readout added, and polls the job once
    a second.  If the job reports [succeeded] at its [n]-th status query
    after the first, having reported neither that before nor [failed] in
    between, [measure] returns the result of the job after [n] seconds of
    sleep, without calling the simulator. *)
Theorem hardware_job_succeeds
    (fuel : nat) (self : PennylaneConverter) (mp : MeasurementProcess)
    (sf : CircuitRef) (shots : nat) (cl : Client B) (n : nat) (m : Main B) :
  runs_shots mp ->
  currentClient m = Some cl ->
  get_status B (submit_circuit B cl (sf_circuit m) shots) n = "succeeded" ->
  (forall i, (i < n)%nat ->
     get_status B (submit_circuit B cl (sf_circuit m) shots) i <> "succeeded") ->
  (forall i, (0 < i < n)%nat ->
     get_status B (submit_circuit B cl (sf_circuit m) shots) i <> "failed") ->
  (n <= fuel)%nat ->
  exists m' tr,
    measure B fuel self mp sf shots m
    = Returned (ResRemote B (get_result B (submit_circuit B cl (sf_circuit m) shots)))
               m' /\
    sf_circuit m' = sf_circuit m /\
    trace m' = trace m ++ EvCall c_submit_circuit :: tr /\
    seconds_slept tr = n /\
    ~ In (EvCall c_simulate_shots) tr.
Proof.
  intros Hk Hc Hn Hs Hf Hfuel.
  rewrite (measure_on_hardware fuel self mp sf shots cl m Hk Hc).
  unfold run_on_hardware. run_py.
  set (job := submit_circuit B cl (sf_circuit m) shots) in *.
  set (m0 := record (EvCall c_get_status) (record (EvCall c_submit_circuit) m)).
  destruct (poll_succeeds job n Hn n 0 fuel m0 eq_refl Hfuel)
    as (m1 & E & C & _ & tr & T & S1 & _ & R2).
  { intros i Hi. apply Hs. lia. }
  { intros i Hi. apply Hf. lia. }
  rewrite E.
  exists (record (EvCall c_get_result) m1),
         ([EvCall c_get_status] ++ tr ++ [EvCall c_get_result]).
  split; [reflexivity|]. split; [exact C|].
  split; [|split].
  - cbn [trace record]. rewrite T. unfold m0. cbn [trace record].
    rewrite <- !app_assoc. reflexivity.
  - rewrite !seconds_slept_app, S1. cbn. lia.
  - intros Hin. apply in_app_iff in Hin as [Hin|Hin].
    + destruct Hin as [Hin|[]]. discriminate Hin.
    + apply in_app_iff in Hin as [Hin|[Hin|[]]]; [auto|discriminate Hin].
Qed.

(** X22.  If the job instead reports [failed] at a status query after the
    first, [measure] fetches no result and raises nothing: for a
    measurement that is no [StateMeasurement] it returns the class
    [NotImplementedError], and the circuit is as it was. *)
Theorem hardware_job_fails
    (fuel : nat) (self : PennylaneConverter) (mp : MeasurementProcess)
    (sf : CircuitRef) (shots : nat) (cl : Client B) (n : nat) (m : Main B) :
  runs_shots mp ->
  is_StateMeasurement mp = false ->
  currentClient m = Some cl ->
  get_status B (submit_circuit B cl (sf_circuit m) shots) (S n) = "failed" ->
  (forall i, (i <= n)%nat ->
     get_status B (submit_circuit B cl (sf_circuit m) shots) i <> "succeeded") ->
  (forall i, (0 < i <= n)%nat ->
     get_status B (submit_circuit B cl (sf_circuit m) shots) i <> "failed") ->
  (S n <= fuel)%nat ->
  exists m' tr,
    measure B fuel self mp sf shots m = Returned ResNotImplementedError m' /\
    sf_circuit m' = sf_circuit m /\
    trace m' = trace m ++ EvCall c_submit_circuit :: tr /\
    seconds_slept tr = S n /\
    ~ In (EvCall c_get_result) tr.
Proof.
  intros Hk Hst Hc Hn Hs Hf Hfuel.
  rewrite (measure_on_hardware fuel self mp sf shots cl m Hk Hc).
  unfold run_on_hardware. run_py.
  set (job := submit_circuit B cl (sf_circuit m) shots) in *.
  set (m0 := record (EvCall c_get_status) (record (EvCall c_submit_circuit) m)).
  destruct (poll_fails job (S n) Hn n 0 fuel m0 eq_refl Hfuel)
    as (m1 & E & C & _ & tr & T & S1 & R1 & _).
  { intros i Hi. apply Hs. lia. }
  { intros i Hi. apply Hf. lia. }
  rewrite E, Hst.
  exists m1, ([EvCall c_get_status] ++ tr).
  split; [reflexivity|]. split; [exact C|].
  split; [|split].
  - rewrite T. unfold m0. cbn [trace record]. rewrite <- !app_assoc. reflexivity.
  - rewrite seconds_slept_app, S1. reflexivity.
  - intros Hin. apply in_app_iff in Hin as [[Hin|[]]|Hin];
      [discriminate Hin|auto].
Qed.

(** X23.  The loop has no way out but a status: when the job never
    reports [succeeded], nor [failed] after the first query, [measure]
    does not end, however many rounds it is given. *)
Theorem hardware_job_never_ends
    (self : PennylaneConverter) (mp : MeasurementProcess)
    (sf : CircuitRef) (shots : nat) (cl : Client B) (m : Main B) :
  runs_shots mp ->
  currentClient m = Some cl ->
  (forall i,
     get_status B (submit_circuit B cl (sf_circuit m) shots) i <> "succeeded") ->
  (forall i, (0 < i)%nat ->
     get_status B (submit_circuit B cl (sf_circuit m) shots) i <> "failed") ->
  forall fuel, measure B fuel self mp sf shots m = Diverged.
Proof.
  intros Hk Hc Hs Hf fuel.
  rewrite (measure_on_hardware fuel self mp sf shots cl m Hk Hc).
  unfold run_on_hardware. run_py.
  rewrite (poll_never_ends _ Hs Hf fuel 0). reflexivity.
Qed.

End Polling.

(** ** The whole of a simulation *)

Section Pipeline.

Context (B : Backend).

Lemma measure_each_stops (fuel : nat) (self : PennylaneConverter)
    (sf : CircuitRef) (shots : nat) (pre post : list MeasurementProcess)
    (mp : MeasurementProcess) (m m1 m2 : Main B) (rs : list (Result B)) (e : Exn) :
  measured_in_turn B fuel self sf shots pre m rs m1 ->
  measure B fuel self mp sf shots m1 = Raised e m2 ->
  measure_each B fuel self (pre ++ mp :: post) sf shots m = Raised e m2.
Proof.
  intros Hpre Hmp.
  induction Hpre as [m|mp0 mps m r m0 rs m1 Hr _ IH]; cbn [app measure_each];
    unfold bind.
  - rewrite Hmp. reflexivity.
  - rewrite Hr. fold (@bind B). rewrite (IH Hmp). reflexivity.
Qed.

(** X24.  An exception in one measurement ends the whole request:
    [measure_final_state] raises it with the session as that call of
    [measure] left it; the measurements after it are not made, the results
    of those before it are lost and the circuit is not printed. *)
Theorem measure_final_state_stops_at_exception
    (fuel : nat) (self : PennylaneConverter) (tape : QuantumScript)
    (sf : CircuitRef) (batched : bool)
    (pre post : list MeasurementProcess) (mp : MeasurementProcess)
    (m m1 m2 : Main B) (rs : list (Result B)) (e : Exn) :
  measurements (map_to_standard_wires B tape) = pre ++ mp :: post ->
  measured_in_turn B fuel self sf (shots_of B tape) pre m rs m1 ->
  measure B fuel self mp sf (shots_of B tape) m1 = Raised e m2 ->
  measure_final_state B fuel self tape sf batched m = Raised e m2.
Proof.
  intros Hm Hpre Hmp. unfold measure_final_state. fold (shots_of B tape).
  rewrite Hm.
  pose proof (measure_each_stops fuel self sf (shots_of B tape) pre post mp
                m m1 m2 rs e Hpre Hmp) as Heach.
  destruct pre as [|p pre].
  - inversion Hpre; subst. destruct post as [|q post]; cbn [app].
    + unfold bind. rewrite Hmp. reflexivity.
    + cbn [app] in Heach. unfold bind at 1 2. rewrite Heach. reflexivity.
  - cbn [app] in Heach |- *.
    destruct (pre ++ mp :: post) eqn:Hl; [destruct pre; discriminate Hl|].
    unfold bind at 1 2. rewrite Heach. reflexivity.
Qed.

(** X25.  A simulation from end to end.  For a tape of supported gates
    with one counts measurement without observable, on the simulator,
    [simulate] returns a table whose values sum to the number of shots of
    the tape (one when the tape gives none); the circuit it leaves is the
    translation of the operations, in order, followed by one readout per
    distinct wire. *)
Theorem simulate_counts_end_to_end
    (fuel : nat) (self : PennylaneConverter) (mp : MeasurementProcess)
    (m : Main B) :
  leading_prep (circuit self) = false ->
  Forall implemented (operations (map_to_standard_wires B (circuit self))) ->
  measurements (map_to_standard_wires B (circuit self)) = [mp] ->
  mp_class mp = CountsMP ->
  obs mp = None ->
  currentClient m = None ->
  (forall c,
     List.length (simulate_shots B c (shots_of B (circuit self)))
     = shots_of B (circuit self)) ->
  exists d gates m',
    simulate_ B fuel self m = Returned (ResCounts d) m' /\
    total d = shots_of B (circuit self) /\
    Forall2 (corresponds B)
      (operations (map_to_standard_wires B (circuit self))) gates /\
    instructions (sf_circuit m')
    = gates ++ readouts_for (List.length (op_wires (circuit self))) /\
    qubit_count (sf_circuit m') = List.length (op_wires (circuit self)).
Proof.
  intros Hprep Himpl Hm Hk Ho Hc Hshots.
  destruct (implemented_emitted B _ Himpl) as [Hall _].
  set (c0 := {| qubit_count := List.length (op_wires (circuit self));
                bit_count := default_bit_count B (List.length (op_wires (circuit self)));
                instructions := [] |}).
  destruct (convert_loop B _ (Forall_impl _ implemented_substitutes Himpl)
              (with_sf_circuit c0 m))
    as (m0 & E0 & I0 & Q0 & _ & C0 & _).
  assert (Hconv : convert_circuit B self (circuit self) m
                  = Returned (the_sf_circuit, false) m0).
  { unfold convert_circuit, visited_operations. rewrite Hprep. cbn [skipn].
    unfold bind, set_sf_circuit. fold c0. rewrite E0. reflexivity. }
  assert (Hc0 : currentClient m0 = None) by (rewrite C0; exact Hc).
  destruct (shots_local B fuel self mp the_sf_circuit (shots_of B (circuit self))
              m0 (or_introl Hk) Ho Hc0)
    as (m1 & E1 & I1 & Q1 & _ & _ & _).
  rewrite Hk in E1.
  exists (Counter (simulate_shots B (sf_circuit m1) (shots_of B (circuit self)))),
         (flat_map (emitted B) (operations (map_to_standard_wires B (circuit self)))),
         (record (EvJuliaPrint (sf_circuit m1)) m1).
  split; [|split; [|split; [|split]]].
  - unfold simulate_, bind. rewrite Hconv. cbn [fst snd].
    unfold measure_final_state. fold (shots_of B (circuit self)). rewrite Hm.
    run_py. rewrite E1. reflexivity.
  - rewrite total_Counter. apply Hshots.
  - exact Hall.
  - cbn [sf_circuit record]. rewrite I1, I0. reflexivity.
  - cbn [sf_circuit record]. rewrite Q1, Q0. reflexivity.
Qed.

End Pipeline.

(** ** The further properties on sample circuits *)

Lemma measuring_only_adds_readouts_witness :
  exists m',
    final_session
      (measure echo_backend 0 (converter_of (bell_tape [counts_mp])) counts_mp
         the_sf_circuit 3 bell_session) = Some m' /\
    readouts_added bell_session m' /\
    filter (fun i => negb (is_Readout i)) (instructions (sf_circuit m'))
    = filter (fun i => negb (is_Readout i)) (instructions (sf_circuit bell_session)).
Proof.
  eexists. split; [cbv; reflexivity|].
  apply (proj1 (measuring_only_adds_readouts echo_backend 0
                  (converter_of (bell_tape [counts_mp])) counts_mp
                  (bell_tape [counts_mp]) the_sf_circuit 3 false bell_session)).
  reflexivity.
Defined.

Lemma state_measurement_simulates_current_circuit_witness :
  exists m',
    measure echo_backend 0 (converter_of (bell_tape [state_mp])) state_mp
      the_sf_circuit 1 measured_session
    = Returned (ResState echo_backend
                  (simulate echo_backend (sf_circuit measured_session))) m' /\
    sf_circuit m' = sf_circuit measured_session /\
    result_state m' = Some (simulate echo_backend (sf_circuit measured_session)).
Proof.
  apply (state_measurement_simulates_current_circuit echo_backend 0
           (converter_of (bell_tape [state_mp])) state_mp 1 measured_session).
  - split; reflexivity.
  - reflexivity.
Defined.

Lemma expectation_with_matrix_witness :
  exists m',
    measure echo_backend 0 (converter_of (bell_tape [expval_mp])) expval_mp
      the_sf_circuit 1 bell_session
    = Returned (ResExpectation echo_backend
                  (expected_value echo_backend pauli_z_obs
                     (simulate echo_backend (referred the_sf_circuit bell_session))))
               m' /\
    sf_circuit m' = sf_circuit bell_session /\
    result_state m'
    = Some (simulate echo_backend (referred the_sf_circuit bell_session)) /\
    trace m' = trace bell_session
               ++ [EvCall c_simulate; EvPrint (type_repr pauli_z_obs);
                   EvCall c_expected_value].
Proof.
  apply (expectation_with_matrix echo_backend 0
           (converter_of (bell_tape [expval_mp])) expval_mp the_sf_circuit 1
           pauli_z_obs bell_session); reflexivity.
Defined.

Lemma expectation_without_matrix_witness :
  exists m',
    measure echo_backend 0 (converter_of (bell_tape [bare_expval_mp]))
      bare_expval_mp the_sf_circuit 1 bell_session
    = Returned ResNotImplementedError m' /\
    sf_circuit m' = sf_circuit bell_session /\
    trace m' = trace bell_session ++ [EvCall c_simulate].
Proof.
  apply (proj1 (expectation_without_matrix echo_backend 0
                  (converter_of (bell_tape [bare_expval_mp])) bare_expval_mp 1
                  bell_session eq_refl (or_introl eq_refl))).
  reflexivity.
Defined.

Lemma shots_run_with_all_readouts_witness :
  exists measured m',
    measure echo_backend 0 (converter_of (bell_tape [counts_mp])) counts_mp
      the_sf_circuit 3 bell_session
    = Returned
        (match mp_class counts_mp with
         | CountsMP => ResCounts (Counter (simulate_shots echo_backend measured 3))
         | _ => ResSample echo_backend
                  (astype_int echo_backend (simulate_shots echo_backend measured 3))
         end) m' /\
    sf_circuit m' = measured /\
    instructions measured
    = instructions (sf_circuit bell_session)
      ++ readouts_for
           (List.length (op_wires (circuit (converter_of (bell_tape [counts_mp]))))) /\
    qubit_count measured = qubit_count (sf_circuit bell_session) /\
    bit_count measured = bit_count (sf_circuit bell_session) /\
    trace m' = trace bell_session ++ [EvCall c_simulate_shots].
Proof.
  apply (shots_run_with_all_readouts echo_backend 0
           (converter_of (bell_tape [counts_mp])) counts_mp the_sf_circuit 3
           bell_session).
  - left. reflexivity.
  - reflexivity.
  - reflexivity.
Defined.

Lemma shots_twice_double_the_readouts_witness :
  exists r1 r2 m',
    measure_each echo_backend 0 (converter_of (bell_tape [counts_mp; counts_mp]))
      [counts_mp; counts_mp] the_sf_circuit 3 bell_session
    = Returned [r1; r2] m' /\
    r2 = match mp_class counts_mp with
         | CountsMP =>
             ResCounts (Counter (simulate_shots echo_backend (sf_circuit m') 3))
         | _ => ResSample echo_backend
                  (astype_int echo_backend
                     (simulate_shots echo_backend (sf_circuit m') 3))
         end /\
    instructions (sf_circuit m')
    = instructions (sf_circuit bell_session)
      ++ readouts_for
           (List.length
              (op_wires (circuit (converter_of (bell_tape [counts_mp; counts_mp])))))
      ++ readouts_for
           (List.length
              (op_wires (circuit (converter_of (bell_tape [counts_mp; counts_mp]))))).
Proof.
  apply (shots_twice_double_the_readouts echo_backend 0
           (converter_of (bell_tape [counts_mp; counts_mp])) counts_mp counts_mp
           the_sf_circuit 3 bell_session).
  - left. reflexivity.
  - left. reflexivity.
  - reflexivity.
  - reflexivity.
  - reflexivity.
Defined.

Lemma hardware_job_succeeds_witness :
  exists m' tr,
    measure echo_backend 1 (converter_of (bell_tape [counts_mp])) counts_mp
      the_sf_circuit 3 remote_session
    = Returned
        (ResRemote echo_backend
           (get_result echo_backend
              (submit_circuit echo_backend client_expression
                 (sf_circuit remote_session) 3))) m' /\
    sf_circuit m' = sf_circuit remote_session /\
    trace m' = trace remote_session ++ EvCall c_submit_circuit :: tr /\
    seconds_slept tr = 1%nat /\
    ~ In (EvCall c_simulate_shots) tr.
Proof.
  apply (hardware_job_succeeds echo_backend 1
           (converter_of (bell_tape [counts_mp])) counts_mp the_sf_circuit 3
           client_expression 1 remote_session).
  - left. reflexivity.
  - reflexivity.
  - reflexivity.
  - intros i Hi. assert (i = 0%nat) as -> by lia. discriminate.
  - intros i Hi. lia.
  - lia.
Defined.

Lemma hardware_job_fails_witness :
  exists m' tr,
    measure failing_backend 1 (converter_of (bell_tape [counts_mp])) counts_mp
      the_sf_circuit 3 (remote_session_on (fun _ => "failed"))
    = Returned ResNotImplementedError m' /\
    sf_circuit m' = sf_circuit (remote_session_on (fun _ => "failed")) /\
    trace m' = trace (remote_session_on (fun _ => "failed"))
               ++ EvCall c_submit_circuit :: tr /\
    seconds_slept tr = 1%nat /\
    ~ In (EvCall c_get_result) tr.
Proof.
  apply (hardware_job_fails failing_backend 1
           (converter_of (bell_tape [counts_mp])) counts_mp the_sf_circuit 3
           client_expression 0 (remote_session_on (fun _ => "failed"))).
  - left. reflexivity.
  - reflexivity.
  - reflexivity.
  - reflexivity.
  - intros i Hi. discriminate.
  - intros i Hi. lia.
  - lia.
Defined.

Lemma hardware_job_never_ends_witness :
  measure pending_backend 1000 (converter_of (bell_tape [counts_mp])) counts_mp
    the_sf_circuit 3 (remote_session_on (fun _ => "pending")) = Diverged.
Proof.
  refine (hardware_job_never_ends pending_backend
            (converter_of (bell_tape [counts_mp])) counts_mp the_sf_circuit 3
            client_expression (remote_session_on (fun _ => "pending"))
            _ _ _ _ 1000%nat).
  - left. reflexivity.
  - reflexivity.
  - intros i. discriminate.
  - intros i Hi. discriminate.
Defined.

Lemma measure_final_state_stops_at_exception_witness :
  exists m2,
    measure_final_state echo_backend 0
      (converter_of (bell_tape [probs_mp []; state_mp; counts_mp]))
      (bell_tape [probs_mp []; state_mp; counts_mp]) the_sf_circuit false
      barrier_session
    = Raised UnboundLocalError m2.
Proof.
  eexists.
  eapply (measure_final_state_stops_at_exception echo_backend 0
            (converter_of (bell_tape [probs_mp []; state_mp; counts_mp]))
            (bell_tape [probs_mp []; state_mp; counts_mp]) the_sf_circuit false
            [probs_mp []] [counts_mp] state_mp barrier_session).
  - reflexivity.
  - eapply measured_next; [cbv; reflexivity|apply measured_none].
  - cbv. reflexivity.
Defined.

Lemma simulate_counts_end_to_end_witness :
  exists d gates m',
    simulate_ echo_backend 0 (converter_of (bell_tape [counts_mp])) start
    = Returned (ResCounts d) m' /\
    total d = shots_of echo_backend (circuit (converter_of (bell_tape [counts_mp]))) /\
    Forall2 (corresponds echo_backend)
      (operations (map_to_standard_wires echo_backend
                     (circuit (converter_of (bell_tape [counts_mp]))))) gates /\
    instructions (sf_circuit m')
    = gates ++ readouts_for
                 (List.length
                    (op_wires (circuit (converter_of (bell_tape [counts_mp]))))) /\
    qubit_count (sf_circuit m')
    = List.length (op_wires (circuit (converter_of (bell_tape [counts_mp])))).
Proof.
  apply (simulate_counts_end_to_end echo_backend 0
           (converter_of (bell_tape [counts_mp])) counts_mp start).
  - reflexivity.
  - repeat constructor; do 2 eexists; split; reflexivity.
  - reflexivity.
  - reflexivity.
  - reflexivity.
  - reflexivity.
  - intros c. reflexivity.
Defined.

(** ** Templates, field by field *)

Lemma digit_is_no_brace (c : ascii) :
  is_digit c = true -> c <> "{"%char /\ c <> "}"%char.
Proof. intros H. split; intros ->; discriminate H. Qed.





Section InOrder.

Context (B : Backend).



End InOrder.

(** ** The filled template is determined by the operation *)

Lemma digits_end (ds ds' t t' : string) :
  forall (a a' k k' : nat),
    digits_value a ds = Some k -> digits_value a' ds' = Some k' ->
    ds +++ String "}" t = ds' +++ String "}" t' ->
    ds = ds' /\ t = t'.
Proof.
  revert ds'. induction ds as [|c ds IH]; intros ds' a a' k k' H H' E.
  - destruct ds' as [|c' ds']; cbn in E.
    + injection E as <-. auto.
    + injection E as <- _. cbn in H'. discriminate H'.
  - destruct ds' as [|c' ds']; cbn in E.
    + injection E as -> _. cbn in H. discriminate H.
    + injection E as <- E. cbn [digits_value] in H, H'.
      destruct (is_digit c); [|discriminate H].
      destruct (IH ds' _ _ _ _ H H' E) as [-> ->]. auto.
Qed.

Lemma digits_value_same (ds : string) (a k k' : nat) :
  digits_value a ds = Some k -> digits_value a ds = Some k' -> k = k'.
Proof. intros H H'. rewrite H in H'. injection H' as <-. reflexivity. Qed.

Lemma first_digit (ds : string) (a k : nat) :
  ds <> "" -> digits_value a ds = Some k ->
  exists c rest, ds = String c rest /\ is_digit c = true.
Proof.
  destruct ds as [|c rest]; [contradiction|]. intros _ H. cbn in H.
  destruct (is_digit c) eqn:E; [eauto|discriminate H].
Qed.

Lemma field_starts_with_digit (ds s s' : string) (a k : nat) :
  ds <> "" -> digits_value a ds = Some k -> ds +++ s <> String "{" s'.
Proof.
  intros Hd Hv E. destruct (first_digit _ _ _ Hd Hv) as (c & rest & -> & Hdig).
  cbn in E. injection E as -> _. discriminate Hdig.
Qed.

Lemma nth_error_in_range {A : Type} (l : list A) (n : nat) (a : A) :
  nth_error l n = Some a -> (n < List.length l)%nat.
Proof. intros H. apply nth_error_Some. rewrite H. discriminate. Qed.

Ltac no_brace_field :=
  match goal with
  | Hd : ?ds <> "", Hv : digits_value _ ?ds = Some _, He : ?ds +++ _ = String "{" _ |- _ =>
      exfalso; exact (field_starts_with_digit _ _ _ _ _ Hd Hv He)
  | Hd : ?ds <> "", Hv : digits_value _ ?ds = Some _, He : String "{" _ = ?ds +++ _ |- _ =>
      exfalso; exact (field_starts_with_digit _ _ _ _ _ Hd Hv (eq_sym He))
  end.

Ltac same_field Hk :=
  match goal with
  | Hv : digits_value 0 _ = Some _, He : _ +++ String "}" _ = _ +++ String "}" _ |- _ =>
      first [ destruct (digits_end _ _ _ _ _ _ _ _ Hk Hv He) as [<- <-]
            | destruct (digits_end _ _ _ _ _ _ _ _ Hk Hv (eq_sym He)) as [<- <-] ];
      pose proof (digits_value_same _ _ _ _ Hk Hv) as Hkk
  end.

(** An operation and a template have at most one filled text. *)
Lemma rendered_unique (op : Operation) (t g1 g2 : string) :
  rendered op t g1 -> rendered op t g2 -> g1 = g2.
Proof.
  intros H1. revert g2.
  induction H1 as [ | c t g Ho Hc _ IH | t g _ IH | t g _ IH
                    | ds k p t g Hds Hk Hp _ IH | ds j w t g Hds Hk Hw _ IH ];
    intros g2 H2.
  - inversion H2; reflexivity.
  - inversion H2; subst; try contradiction.
    f_equal. apply IH. assumption.
  - inversion H2; subst; try contradiction; try no_brace_field.
    f_equal. apply IH. assumption.
  - inversion H2; subst; try contradiction.
    f_equal. apply IH. assumption.
  - inversion H2; subst; try contradiction; try no_brace_field.
    + same_field Hk. subst.
      match goal with
      | Hn : nth_error (parameters op) _ = Some _ |- _ =>
          rewrite Hp in Hn; injection Hn as <-
      end.
      f_equal. apply IH. assumption.
    + same_field Hk. exfalso. apply nth_error_in_range in Hp. lia.
  - inversion H2; subst; try contradiction; try no_brace_field.
    + same_field Hk.
      match goal with
      | Hn : nth_error (parameters op) _ = Some _ |- _ =>
          exfalso; apply nth_error_in_range in Hn; lia
      end.
    + same_field Hk.
      match goal with
      | Hn : nth_error (wires op) ?j0 = Some _ |- _ =>
          assert (j0 = j) as -> by lia; rewrite Hw in Hn; injection Hn as <-
      end.
      f_equal. apply IH. assumption.
Qed.

(** The instruction an operation is translated to is determined by the
    operation. *)
Lemma translated_unique (B : Backend) (op : Operation) (i1 i2 : Instruction) :
  translated B op i1 -> translated B op i2 -> i1 = i2.
Proof.
  intros (t1 & g1 & T1 & R1 & ->) (t2 & g2 & T2 & R2 & ->).
  rewrite T1 in T2. injection T2 as <-.
  rewrite (rendered_unique op t1 g1 g2 R1 R2). reflexivity.
Qed.

(** [qml.RX(0.5, wires=2)]: the field [{1}] takes the wire plus one, the
    field [{0}] the angle. *)
Example rx_rendered :
  rendered (gate_op "RX" [PyFloat "0.5"] [2%Z])
           "rotation_x({1},{0})" "rotation_x(3,0.5)".
Proof.
  do 11 (apply rendered_text; [discriminate|discriminate|]).
  apply (rendered_wire _ "1" 0 2 ",{0})" ",0.5)");
    [discriminate|reflexivity|reflexivity|].
  apply rendered_text; [discriminate|discriminate|].
  apply (rendered_parameter _ "0" 0 (PyFloat "0.5") ")" ")");
    [discriminate|reflexivity|reflexivity|].
  apply rendered_text; [discriminate|discriminate|].
  apply rendered_end.
Qed.

Example rx_not_rendered_unshifted :
  ~ rendered (gate_op "RX" [PyFloat "0.5"] [2%Z])
             "rotation_x({1},{0})" "rotation_x(2,0.5)".
Proof.
  intros H. pose proof (rendered_unique _ _ _ _ H rx_rendered) as E.
  discriminate E.
Qed.



(** ** Measurements without a block of their own *)

Section NoHandler.

Context (B : Backend).

Lemma measured_in_turn_app fuel self sf shots pre post (m m1 m2 : Main B) rs1 rs2 :
  measured_in_turn B fuel self sf shots pre m rs1 m1 ->
  measured_in_turn B fuel self sf shots post m1 rs2 m2 ->
  measured_in_turn B fuel self sf shots (pre ++ post) m (rs1 ++ rs2) m2.
Proof.
  induction 1 as [m|mp mps m r m1' rs m1 Hr _ IH]; intros Hpost; cbn [app].
  - exact Hpost.
  - econstructor; [exact Hr|exact (IH Hpost)].
Qed.

(** Whatever circuit it is handed, the block of the state measurements
    ends, when it ends, with the [return] of a state. *)
Lemma state_branch_returns_state (sf : CircuitRef) (m m' : Main B)
    (o : option (Result B)) :
  state_branch B sf m = Returned o m' ->
  exists k, o = Some (ResState B k) /\ result_state m' = Some k.
Proof.
  unfold state_branch. unfold bind at 1.
  destruct (has_readout B m) as [b m1|e m1|]; try discriminate.
  destruct b.
  - unfold bind at 1. unfold bind at 1.
    destruct (remove_readouts B m1) as [c m2|e m2|]; try discriminate.
    unfold run_simulate. run_py. intros H. injection H as <- <-.
    eexists. split; reflexivity.
  - unfold run_simulate. destruct sf; run_py; intros H; injection H as <- <-;
      eexists; split; reflexivity.
Qed.

(** C8, as the code has it.  Take a measurement that is an instance of
    none of [CountsMP], [SampleMP], [ProbabilityMP] and [ExpectationMP].
    If it is no [StateMeasurement] either, [measure] raises nothing: it
    returns, as an ordinary value, the class [NotImplementedError] and
    leaves the session untouched; [measure_final_state] hands that value
    back as the result of a request for this measurement alone and, in a
    request for several measurements whose other measurements return,
    puts it in the tuple at the place of the measurement, between the
    results of the measurements before it and of those after it.  If it
    is a [StateMeasurement], the last block of [measure] takes it: what
    [measure] returns, when it returns, is a simulated state and never
    the class [NotImplementedError], and on the current circuit, when
    that holds only readouts and gates whose symbol is on one line, it
    does return the state simulated for that circuit. *)
Theorem unhandled_measurement_yields_marker
    (fuel : nat) (self : PennylaneConverter) (mp : MeasurementProcess)
    (sf : CircuitRef) (m : Main B) :
  mp_class mp = OtherMP ->
  (is_StateMeasurement mp = false ->
   (forall shots,
      measure B fuel self mp sf shots m = Returned ResNotImplementedError m) /\
   (forall tape batched,
      measurements (map_to_standard_wires B tape) = [mp] ->
      measure_final_state B fuel self tape sf batched m
      = Returned ResNotImplementedError (record (EvJuliaPrint (sf_circuit m)) m)) /\
   (forall tape batched pre post rs1 rs2 m0 m2,
      measurements (map_to_standard_wires B tape) = pre ++ mp :: post ->
      pre ++ post <> [] ->
      measured_in_turn B fuel self sf (shots_of B tape) pre m0 rs1 m ->
      measured_in_turn B fuel self sf (shots_of B tape) post m rs2 m2 ->
      measure_final_state B fuel self tape sf batched m0
      = Returned (ResTuple (rs1 ++ ResNotImplementedError :: rs2))
          (record (EvJuliaPrint (sf_circuit m2)) m2))) /\
  (is_StateMeasurement mp = true ->
   (forall shots r m',
      measure B fuel self mp sf shots m = Returned r m' ->
      r <> ResNotImplementedError /\
      exists k, r = ResState B k /\ result_state m' = Some k) /\
   (forall shots,
      sf = the_sf_circuit ->
      forallb plain (instructions (sf_circuit m)) = true ->
      exists m',
        measure B fuel self mp sf shots m
        = Returned (ResState B (simulate B (sf_circuit m))) m' /\
        sf_circuit m' = sf_circuit m)).
Proof.
  intros Hk. split; intros Hs.
  - assert (Hm : forall shots,
               measure B fuel self mp sf shots m = Returned ResNotImplementedError m).
    { intros shots. unfold measure. rewrite Hk, Hs. reflexivity. }
    split; [exact Hm|]. split.
    + intros tape batched Hone. unfold measure_final_state. rewrite Hone.
      run_py. rewrite Hm. reflexivity.
    + intros tape batched pre post rs1 rs2 m0 m2 Hreq Hmore Hpre Hpost.
      assert (Hall : measured_in_turn B fuel self sf (shots_of B tape)
                       (pre ++ mp :: post) m0
                       (rs1 ++ ResNotImplementedError :: rs2) m2).
      { apply (measured_in_turn_app _ _ _ _ _ _ _ _ _ _ _ Hpre).
        econstructor; [apply Hm|exact Hpost]. }
      destruct (measured_in_turn_each _ _ _ _ _ _ _ _ _ Hall) as [Heach _].
      unfold measure_final_state. fold (shots_of B tape). rewrite Hreq.
      destruct pre as [|p1 pre].
      * destruct post as [|p2 post]; [contradiction Hmore; reflexivity|].
        cbn [app] in *. run_py. rewrite Heach. reflexivity.
      * destruct pre as [|p2 pre]; cbn [app] in *;
          run_py; rewrite Heach; reflexivity.
  - split.
    + intros shots r m' H. unfold measure in H. rewrite Hk, Hs in H.
      cbn [MPClass_eqb] in H. unfold block in H. unfold bind in H.
      destruct (state_branch B sf m) as [o m1|e m1|] eqn:E; try discriminate H.
      destruct (state_branch_returns_state _ _ _ _ E) as (k & -> & Hr).
      unfold ret in H. injection H as <- <-.
      split; [discriminate|]. exists k. auto.
    + intros shots -> Hplain. unfold measure. rewrite Hk, Hs.
      cbn [MPClass_eqb]. unfold block.
      destruct (state_branch_plain B m Hplain) as (m' & E & C & _).
      unfold bind. rewrite E. exists m'. auto.
Qed.

End NoHandler.

Lemma unhandled_measurement_yields_marker_witness :
  (measure echo_backend 0
     (converter_of (bell_tape [probs_mp []; shadow_mp; probs_mp [0%Z]]))
     shadow_mp the_sf_circuit 1
     (record (EvCall c_get_measurement_probabilities) bell_session)
   = Returned ResNotImplementedError
       (record (EvCall c_get_measurement_probabilities) bell_session) /\
   measure_final_state echo_backend 0
     (converter_of (bell_tape [probs_mp []; shadow_mp; probs_mp [0%Z]]))
     (bell_tape [probs_mp []; shadow_mp; probs_mp [0%Z]])
     the_sf_circuit false bell_session
   = Returned
       (ResTuple
          [ResProbabilities echo_backend (sf_circuit bell_session, None);
           ResNotImplementedError;
           ResProbabilities echo_backend (sf_circuit bell_session, Some [1%Z])])
       (record (EvJuliaPrint (sf_circuit bell_session))
          (record (EvCall c_get_measurement_probabilities)
             (record (EvCall c_get_measurement_probabilities) bell_session)))) /\
  (exists m',
     measure echo_backend 0 (converter_of (bell_tape [var_mp])) var_mp
       the_sf_circuit 1 bell_session
     = Returned (ResState echo_backend (simulate echo_backend (sf_circuit bell_session))) m' /\
     sf_circuit m' = sf_circuit bell_session).
Proof.
  destruct (unhandled_measurement_yields_marker echo_backend 0
              (converter_of (bell_tape [probs_mp []; shadow_mp; probs_mp [0%Z]]))
              shadow_mp the_sf_circuit
              (record (EvCall c_get_measurement_probabilities) bell_session)
              eq_refl) as [Hno _].
  destruct (Hno eq_refl) as (Hone & _ & Htuple).
  destruct (unhandled_measurement_yields_marker echo_backend 0
              (converter_of (bell_tape [var_mp])) var_mp the_sf_circuit
              bell_session eq_refl) as [_ Hstate].
  destruct (Hstate eq_refl) as [_ Hplain].
  split; [split|].
  - exact (Hone 1%nat).
  - apply (Htuple (bell_tape [probs_mp []; shadow_mp; probs_mp [0%Z]]) false
             [probs_mp []] [probs_mp [0%Z]]
             [ResProbabilities echo_backend (sf_circuit bell_session, None)]
             [ResProbabilities echo_backend (sf_circuit bell_session, Some [1%Z])]
             bell_session
             (record (EvCall c_get_measurement_probabilities)
                (record (EvCall c_get_measurement_probabilities) bell_session))).
    + reflexivity.
    + discriminate.
    + econstructor; [reflexivity|constructor].
    + econstructor; [reflexivity|constructor].
  - apply (Hplain 1%nat eq_refl). reflexivity.
Defined.
